(** * Streaming relay handlers: a shallow embedding and its properties

    The development embeds the two streaming handlers of the repository,
    the Node relay ([src/unnamed/part_000], a [module.exports] handler that
    forwards the upstream chunks as they come) and the edge relay
    ([src/unnamed/part_001], [api/streaming-edge.js], which reassembles
    lines), together with the non-streaming proxy of [src/api/proxy.js],
    whose request normalisation the claims compare with the relays'.

    Conventions of the embedding:
    - a JavaScript string is the list of its UTF-16 code units;
    - a JavaScript number is a rational, [NaN] or a signed infinity (every
      finite double is a rational, and the handlers only compare numbers,
      so no rounding is involved);
    - a JavaScript object used as a dictionary is a [gmap] from property
      names to values; a property that is missing reads as [undefined];
    - what a handler writes to its client is a list of frames, each frame
      standing for one [write] call of the source. *)

From Stdlib Require Import ZArith NArith QArith Qcanon List String Ascii Bool Lia.
From Stdlib Require Import DecimalString.
From stdpp Require Import base option list strings gmap numbers.

Set Warnings "-register-all".
Local Open Scope Z_scope.

(** ** JavaScript strings and values *)

Module Js.

(** UTF-16 code units. *)
Abbreviation code_unit := N.
Abbreviation jsstring := (list N).

(** A literal of the source, as code units (literals are ASCII). *)
Fixpoint lit (s : string) : jsstring :=
  match s with
  | EmptyString => []
  | String a s' => N_of_ascii a :: lit s'
  end.

(** The line terminator ['\n']. *)
Definition LF : code_unit := 10%N.

(** WhiteSpace and LineTerminator code points of ECMAScript, the ones
    [String.prototype.trim] strips. *)
Definition is_white_space (c : code_unit) : bool :=
  ((9 <=? c) && (c <=? 13) || (c =? 32) || (c =? 160) || (c =? 5760)
   || (8192 <=? c) && (c <=? 8202) || (c =? 8232) || (c =? 8233)
   || (c =? 8239) || (c =? 8287) || (c =? 12288) || (c =? 65279))%N.

Fixpoint trim_start (s : jsstring) : jsstring :=
  match s with
  | [] => []
  | c :: s' => if is_white_space c then trim_start s' else s
  end.

(** [s.trim()]. *)
Definition trim (s : jsstring) : jsstring :=
  rev (trim_start (rev (trim_start s))).

(** Truthiness of a string: only the empty string is falsy. *)
Definition str_truthy (s : jsstring) : bool :=
  match s with [] => false | _ :: _ => true end.

(** [s.startsWith(p)]. *)
Fixpoint startsWith (p s : jsstring) : bool :=
  match p, s with
  | [], _ => true
  | _ :: _, [] => false
  | a :: p', b :: s' => (a =? b)%N && startsWith p' s'
  end.

(** [s.split('\n')]: the segments between line terminators; the result
    is never empty, and its last element is what follows the last
    terminator. *)
Fixpoint split_lines (s : jsstring) : list jsstring :=
  match s with
  | [] => [[]]
  | c :: s' =>
      if (c =? LF)%N then [] :: split_lines s'
      else match split_lines s' with
           | l :: ls => (c :: l) :: ls
           | [] => [[c]]
           end
  end.

(** Numbers. *)
Inductive number : Type :=
| Fin (q : Qc)
| NaN
| Infinity (negative : bool).

(** Values, as far as the handlers look into them. Arrays and nested
    objects are carried along unchanged. *)
Inductive value : Type :=
| VUndefined
| VNull
| VBool (b : bool)
| VNum (n : number)
| VStr (s : jsstring)
| VArr (elems : list value)
| VObj (props : gmap string value).

Abbreviation object := (gmap string value).

(** ToBoolean. *)
Definition truthy (v : value) : bool :=
  match v with
  | VUndefined | VNull => false
  | VBool b => b
  | VNum (Fin q) => negb (bool_decide (q = 0%Qc))
  | VNum NaN => false
  | VNum (Infinity _) => true
  | VStr s => str_truthy s
  | VArr _ | VObj _ => true
  end.

(** [o.k] on an object: a missing property reads as [undefined]. *)
Definition get (o : object) (k : string) : value :=
  default VUndefined (o !! k).

(** [v === undefined]. *)
Definition is_undefined (v : value) : bool :=
  match v with VUndefined => true | _ => false end.

(** [a || b]. *)
Definition or_else (a b : value) : value :=
  if truthy a then a else b.

(** Integer and decimal literals of the source. *)
Definition int (z : Z) : number := Fin (Q2Qc (inject_Z z)).
Definition dec (num : Z) (den : positive) : number := Fin (Q2Qc (num # den)).

(** What the handlers use of the platform and cannot be read off their
    source: the coercion of strings, arrays and objects to a number, the
    JSON quoting of a string, and the message of the [TypeError] raised
    when a property of [null] or [undefined] is read. *)
Class Platform : Type := {
  StringToNumber : jsstring -> number;
  ObjectToNumber : value -> number;
  JSON_quote : jsstring -> jsstring;
  TypeError_message : string -> jsstring
}.

(** ToNumber. *)
Definition ToNumber `{Platform} (v : value) : number :=
  match v with
  | VUndefined => NaN
  | VNull => int 0
  | VBool b => if b then int 1 else int 0
  | VNum n => n
  | VStr s => StringToNumber s
  | VArr _ | VObj _ => ObjectToNumber v
  end.

(** [a <= b] on numbers that are not [NaN]. *)
Definition num_le (a b : number) : bool :=
  match a, b with
  | Fin p, Fin q => bool_decide (p <= q)%Qc
  | Infinity true, _ => true
  | _, Infinity false => true
  | _, _ => false
  end.

(** [Math.max(a, b)] and [Math.min(a, b)] on two numbers. *)
Definition Math_max (a b : number) : number :=
  match a, b with
  | NaN, _ | _, NaN => NaN
  | _, _ => if num_le a b then b else a
  end.

Definition Math_min (a b : number) : number :=
  match a, b with
  | NaN, _ | _, NaN => NaN
  | _, _ => if num_le a b then a else b
  end.

(** [v === undefined || v === null]. *)
Definition is_nullish (v : value) : bool :=
  match v with VUndefined | VNull => true | _ => false end.

(** What [JSON.stringify] makes of a property of the object it is given: a
    property holding [undefined] is left out, and a number that is not
    finite is written as [null]. *)
Definition json_property (v : value) : option value :=
  match v with
  | VUndefined => None
  | VNum NaN | VNum (Infinity _) => Some VNull
  | _ => Some v
  end.

(** The object that the text [JSON.stringify(o)] denotes. *)
Definition JSON_stringify (o : object) : object := omap json_property o.

(** Decimal digits of a non-negative integer, as in a template literal. *)
Definition decimal (n : N) : jsstring :=
  lit (NilEmpty.string_of_uint (N.to_uint n)).

End Js.

Import Js.

(** ** Frames written to the client *)

Module Sse.

(** One frame per [write] call of the handlers. *)
Inductive frame : Type :=
| Chunk (bytes : jsstring)
    (* res.write(chunk): upstream bytes forwarded untouched *)
| Forward (line : jsstring)
    (* writer.write(encoder.encode(line + '\n\n')) *)
| Wrap (line : jsstring)
    (* writer.write(encoder.encode(`data: ${line}\n\n`)) *)
| ErrorFrame (message : jsstring) (details : option jsstring)
    (* `data: ${JSON.stringify({error: true, message, details})}\n\n` *)
| Done.
    (* 'data: [DONE]\n\n' *)

Definition quote_mark : code_unit := 34%N.
Definition key (k : string) : jsstring := [quote_mark] ++ lit k ++ [quote_mark].

(** [JSON.stringify({error: true, message: m, details: d})]. *)
Definition stringify_error `{Platform} (m : jsstring) (d : option jsstring) : jsstring :=
  lit "{" ++ key "error" ++ lit ":true," ++ key "message" ++ lit ":" ++ JSON_quote m
  ++ match d with
     | Some t => lit "," ++ key "details" ++ lit ":" ++ JSON_quote t
     | None => []
     end
  ++ lit "}".

(** The text a frame puts on the wire. *)
Definition render `{Platform} (f : frame) : jsstring :=
  match f with
  | Chunk bytes => bytes
  | Forward line => line ++ [LF; LF]
  | Wrap line => lit "data: " ++ line ++ [LF; LF]
  | ErrorFrame m d => lit "data: " ++ stringify_error m d ++ [LF; LF]
  | Done => lit "data: [DONE]" ++ [LF; LF]
  end.

Definition is_done (f : frame) : bool :=
  match f with Done => true | _ => false end.

Definition is_error (f : frame) : bool :=
  match f with ErrorFrame _ _ => true | _ => false end.

(** How many of the writes are the relay's own done marker (line 134 of the
    Node relay, line 205 of the edge relay). A chunk or a line of the
    upstream that is passed on is not counted, whatever its text. *)
Definition done_count (fs : list frame) : nat := length (filter (fun f => is_done f = true) fs).

(** The line a data frame carries, once the prefix that the relay itself
    put in front of it is taken off again. *)
Definition relayed_line (f : frame) : option jsstring :=
  match f with
  | Forward line | Wrap line => Some line
  | _ => None
  end.

Definition data_lines (fs : list frame) : list jsstring := omap relayed_line fs.

End Sse.

Import Sse.

(** ** Request normalisation *)

Module Normalizer.

(** [if (o.k === undefined) o.k = d]. *)
Definition set_default (k : string) (d : value) (o : object) : object :=
  if is_undefined (get o k) then <[k := d]> o else o.

(** [Math.min(Math.max(1, v), provider_max)]. *)
Definition clamp `{Platform} (v : value) (provider_max : Z) : number :=
  Math_min (Math_max (int 1) (ToNumber v)) (int provider_max).

(** The edge relay, lines 94 to 106: the body is updated in place. *)
Definition edge_normalize `{Platform} (requestBody : object) : object :=
  let requestBody := <["stream" := VBool true]> requestBody in
  let requestBody := set_default "max_tokens" (VNum (int 4008)) requestBody in
  let requestBody := set_default "top_p" (VNum (int 1)) requestBody in
  let requestBody := set_default "top_k" (VNum (int 40)) requestBody in
  let requestBody := set_default "presence_penalty" (VNum (int 0)) requestBody in
  let requestBody := set_default "frequency_penalty" (VNum (int 0)) requestBody in
  let requestBody := set_default "temperature" (VNum (dec 6 10)) requestBody in
  <["max_tokens" := VNum (clamp (get requestBody "max_tokens") 8192)]> requestBody.

(** [o.k !== undefined ? o.k : d]. *)
Definition supplied_or (v d : value) : value :=
  if negb (is_undefined v) then v else d.

(** The Node relay, lines 61 to 94: a fresh object [cleanedParams] is
    built and its [undefined] and [null] properties are deleted. *)
Definition validatedMaxTokens `{Platform} (requestBody : object) : number :=
  let originalMaxTokens := or_else (get requestBody "max_tokens") (VNum (int 4008)) in
  clamp originalMaxTokens 40000.

Definition cleanedParams `{Platform} (requestBody : object) : object :=
  let requestBody :=
    if is_undefined (get requestBody "stream")
    then <["stream" := VBool true]> requestBody else requestBody in
  let built : object :=
    list_to_map
      [ ("model", get requestBody "model");
        ("messages", get requestBody "messages");
        ("max_tokens", VNum (validatedMaxTokens requestBody));
        ("temperature", supplied_or (get requestBody "temperature") (VNum (dec 6 10)));
        ("top_p", supplied_or (get requestBody "top_p") (VNum (int 1)));
        ("top_k", supplied_or (get requestBody "top_k") (VNum (int 40)));
        ("presence_penalty", supplied_or (get requestBody "presence_penalty") (VNum (int 0)));
        ("frequency_penalty", supplied_or (get requestBody "frequency_penalty") (VNum (int 0)));
        ("stream", VBool true) ] in
  filter (fun kv => is_nullish kv.2 = false) built.

(** The non-streaming proxy, lines 46 to 58 of [api/proxy.js]. *)
Definition proxy_normalize `{Platform} (requestBody : object) : object :=
  let requestBody :=
    if is_undefined (get requestBody "max_tokens")
    then <["max_tokens" := VNum (int 4008)]> requestBody
    else <["max_tokens" := VNum (clamp (get requestBody "max_tokens") 40000)]> requestBody in
  let requestBody := set_default "top_p" (VNum (int 1)) requestBody in
  let requestBody := set_default "top_k" (VNum (int 40)) requestBody in
  let requestBody := set_default "presence_penalty" (VNum (int 0)) requestBody in
  let requestBody := set_default "frequency_penalty" (VNum (int 0)) requestBody in
  set_default "temperature" (VNum (dec 6 10)) requestBody.

End Normalizer.

Import Normalizer.

(** ** What the handlers and their surroundings exchange *)

Module Http.

(** The outcome of parsing the request body ([await request.json()], or
    [JSON.parse(req.body)] and the platform's own body parser). *)
Inductive parse_result : Type :=
| Malformed (message : jsstring)
| Parsed (v : value).

Record request : Type := {
  method : string;
  body : parse_result
}.

(** [process.env.FIREWORKS_API_KEY]; [!apiKey] holds when the variable is
    unset or empty. *)
Definition key_missing (apiKey : option jsstring) : bool :=
  match apiKey with
  | Some k => negb (str_truthy k)
  | None => true
  end.

(** The body of a response: nothing, one JSON error object, or an event
    stream with the frames written so far and whether it was closed. *)
Inductive response_body : Type :=
| Empty
| Json (error : jsstring) (message : option jsstring)
| EventStream (frames : list frame) (closed : bool).

Record response : Type := {
  status : N;
  headers : gmap string string;
  content : response_body
}.

(** The frames of a response that is an event stream. *)
Definition frames_written (r : response) : list frame :=
  match content r with
  | EventStream frames _ => frames
  | _ => []
  end.

(** [response.ok]. *)
Definition ok (status : N) : bool := ((200 <=? status) && (status <=? 299))%N.

(** The properties of a parsed body that the handlers read: [None] when
    reading a property throws (the body is [null] or [undefined]); numbers,
    strings, booleans and arrays have none of the properties read. *)
Definition properties (v : value) : option object :=
  match v with
  | VUndefined | VNull => None
  | VObj o => Some o
  | _ => Some ∅
  end.

Definition cors : gmap string string :=
  {[ "Access-Control-Allow-Origin" := "*" ]}.

Definition json_headers : gmap string string :=
  <[ "Content-Type" := "application/json" ]> cors.

End Http.

Import Http.

(** ** The edge relay, [src/unnamed/part_001] *)

Module StreamingEdge.

(** How the upstream body ends: [reader.read()] reports [done], or it
    rejects. *)
Inductive read_end : Type :=
| EndOfData
| ReadFails (message : jsstring).

(** The upstream's answer. [reads] holds, for each successive
    [reader.read()] that delivers a value, the text that
    [decoder.decode(value, {stream: true})] makes of it. [text] is what
    [response.text()] resolves to, [None] when it rejects. *)
Record upstream_response : Type := {
  up_status : N;
  up_statusText : jsstring;
  up_text : option jsstring;
  reads : list jsstring;
  ending : read_end
}.

Inductive fetch_outcome : Type :=
| FetchRejects (message : jsstring)
| FetchResolves (r : upstream_response).

(** Lines 183 to 196: what one complete line makes the relay write. *)
Definition frames_of_line (line : jsstring) : list frame :=
  if negb (str_truthy (trim line)) then []
  else if startsWith (lit "data:") line then [Forward line]
  else [Wrap line].

(** [lines.pop() || '']. *)
Definition pop_or_empty (lines : list jsstring) : jsstring :=
  match list.last lines with
  | Some l => if str_truthy l then l else lit ""
  | None => lit ""
  end.

(** One turn of the read loop, lines 173 to 196; the state is
    [incompleteChunk] and the frames written so far. *)
Definition read_step (st : jsstring * list frame) (value : jsstring)
  : jsstring * list frame :=
  let '(incompleteChunk, written) := st in
  let textChunk := incompleteChunk ++ value in
  let lines := split_lines textChunk in
  let incompleteChunk := pop_or_empty lines in
  let lines := removelast lines in
  (incompleteChunk, written ++ flat_map frames_of_line lines).

(** Lines 163 to 216: the loop, the flush of the carry-over, the done
    marker, and the [catch] of a failed read. The client is taken to stay
    connected, so that every [writer.write] resolves: the source has no
    handling of a client that goes away. *)
Definition relay (reads : list jsstring) (ending : read_end) : list frame :=
  let '(incompleteChunk, written) := fold_left read_step reads (lit "", []) in
  match ending with
  | EndOfData =>
      written
      ++ (if str_truthy incompleteChunk then [Wrap incompleteChunk] else [])
      ++ [Done]
  | ReadFails message =>
      written ++ [ErrorFrame (lit "Stream processing error: " ++ message) None]
  end.

(** Lines 127 to 231, the work done in the background: every path closes the writer,
    so the result is the frames written before the close. *)
Definition background (outcome : fetch_outcome) : list frame :=
  match outcome with
  | FetchRejects message =>
      [ErrorFrame (lit "Request failed: " ++ message) None]
  | FetchResolves r =>
      if negb (ok (up_status r)) then
        let errorDetails :=
          match up_text r with
          | Some t => t
          | None => lit "Status code: " ++ decimal (up_status r)
          end in
        [ErrorFrame (lit "API Error: " ++ up_statusText r) (Some errorDetails)]
      else relay (reads r) (ending r)
  end.

Definition stream_headers : gmap string string :=
  <[ "Content-Type" := "text/event-stream" ]>
  (<[ "Cache-Control" := "no-cache, no-transform" ]>
  (<[ "Connection" := "keep-alive" ]> cors)).

Definition preflight_headers : gmap string string :=
  <[ "Access-Control-Allow-Methods" := "GET, POST, OPTIONS" ]>
  (<[ "Access-Control-Allow-Headers" := "Content-Type, Authorization" ]>
  (<[ "Access-Control-Max-Age" := "86400" ]> cors)).

(** The handler. The second component is the body of the request made to
    the upstream, when one is made. *)
Definition handler `{Platform} (apiKey : option jsstring) (request : Http.request)
    (outcome : fetch_outcome) : response * option object :=
  if bool_decide (method request = "OPTIONS") then
    ({| status := 204; headers := preflight_headers; content := Empty |}, None)
  else if negb (bool_decide (method request = "POST")) then
    ({| status := 405; headers := <[ "Allow" := "POST" ]> json_headers;
        content := Json (lit "Method Not Allowed") None |}, None)
  else if key_missing apiKey then
    ({| status := 500; headers := json_headers;
        content := Json (lit "API key not configured")
          (Some (lit "Please set FIREWORKS_API_KEY in your Vercel environment variables")) |},
     None)
  else
    match body request with
    | Malformed message =>
        ({| status := 400; headers := json_headers;
            content := Json (lit "Invalid JSON in request body") (Some message) |}, None)
    | Parsed v =>
        match properties v with
        | None =>
            ({| status := 500; headers := json_headers;
                content := Json (lit "Internal Server Error")
                  (Some (TypeError_message "model")) |}, None)
        | Some requestBody =>
            if negb (truthy (get requestBody "model")) then
              ({| status := 400; headers := json_headers;
                  content := Json (lit "Missing model parameter")
                    (Some (lit "Model parameter is required")) |}, None)
            else
              let requestBody := edge_normalize requestBody in
              ({| status := 200; headers := stream_headers;
                  content := EventStream (background outcome) true |},
               Some (JSON_stringify requestBody))
        end
    end.

End StreamingEdge.

(** ** The Node relay, [src/unnamed/part_000] *)

Module Streaming.

Inductive fetch_outcome : Type :=
| FetchRejects (message : jsstring)
| FetchResolves (status : N) (statusText : jsstring).

(** What the runtime may deliver once the listeners are registered: the
    three events of the upstream body and the [close] of the request. *)
Inductive event : Type :=
| UpstreamData (chunk : jsstring)
| UpstreamEnd
| UpstreamError (message : jsstring)
| ClientClose.

(** The response object [res] and the upstream body [apiStream]:
    [finished] is set once the body has emitted [end] or [error],
    [destroyed] once [apiStream.destroy()] was called, [listening] once the
    listeners of lines 125 to 150 are registered. *)
Record session : Type := {
  statusCode : N;
  resHeaders : gmap string string;
  headersSent : bool;
  jsonBody : option (jsstring * option jsstring);
  written : list frame;
  ended : bool;
  listening : bool;
  finished : bool;
  destroyed : bool
}.

Definition fresh : session :=
  {| statusCode := 200; resHeaders := ∅; headersSent := false; jsonBody := None;
     written := []; ended := false; listening := false; finished := false;
     destroyed := false |}.

(** [res.setHeader(k, v)]. *)
Definition setHeader (k v : string) (s : session) : session :=
  {| statusCode := statusCode s; resHeaders := <[k := v]> (resHeaders s);
     headersSent := headersSent s; jsonBody := jsonBody s; written := written s;
     ended := ended s; listening := listening s; finished := finished s;
     destroyed := destroyed s |}.

(** [res.flushHeaders()]. *)
Definition flushHeaders (s : session) : session :=
  {| statusCode := statusCode s; resHeaders := resHeaders s;
     headersSent := true; jsonBody := jsonBody s; written := written s;
     ended := ended s; listening := listening s; finished := finished s;
     destroyed := destroyed s |}.

(** [res.write(f)]: nothing reaches the client once [res.end()] was
    called. *)
Definition write (f : frame) (s : session) : session :=
  if ended s then s
  else
    {| statusCode := statusCode s; resHeaders := resHeaders s;
       headersSent := true; jsonBody := jsonBody s; written := written s ++ [f];
       ended := false; listening := listening s; finished := finished s;
       destroyed := destroyed s |}.

(** [res.end()]. *)
Definition end_ (s : session) : session :=
  {| statusCode := statusCode s; resHeaders := resHeaders s;
     headersSent := true; jsonBody := jsonBody s; written := written s;
     ended := true; listening := listening s; finished := finished s;
     destroyed := destroyed s |}.

(** [res.status(code).end()] and [res.status(code).json(...)]. *)
Definition status_end (code : N) (s : session) : session :=
  {| statusCode := code; resHeaders := resHeaders s;
     headersSent := true; jsonBody := jsonBody s; written := written s;
     ended := true; listening := listening s; finished := finished s;
     destroyed := destroyed s |}.

Definition status_json (code : N) (error : jsstring) (message : option jsstring)
    (s : session) : session :=
  {| statusCode := code; resHeaders := resHeaders s;
     headersSent := true; jsonBody := Some (error, message); written := written s;
     ended := true; listening := listening s; finished := finished s;
     destroyed := destroyed s |}.

(** [apiStream.destroy()]. *)
Definition destroy (s : session) : session :=
  {| statusCode := statusCode s; resHeaders := resHeaders s;
     headersSent := headersSent s; jsonBody := jsonBody s; written := written s;
     ended := ended s; listening := listening s; finished := finished s;
     destroyed := true |}.

Definition listen (s : session) : session :=
  {| statusCode := statusCode s; resHeaders := resHeaders s;
     headersSent := headersSent s; jsonBody := jsonBody s; written := written s;
     ended := ended s; listening := true; finished := finished s;
     destroyed := destroyed s |}.

Definition finish (s : session) : session :=
  {| statusCode := statusCode s; resHeaders := resHeaders s;
     headersSent := headersSent s; jsonBody := jsonBody s; written := written s;
     ended := ended s; listening := listening s; finished := true;
     destroyed := destroyed s |}.

(** The four listeners, lines 125 to 150. *)
Definition on_data (chunk : jsstring) (s : session) : session :=
  write (Chunk chunk) s.

Definition on_end (s : session) : session :=
  end_ (write Done s).

Definition on_error (message : jsstring) (s : session) : session :=
  end_ (write Done (write (ErrorFrame message None) s)).

Definition on_close (s : session) : session :=
  end_ (destroy s).

(** Delivery of one event. A readable stream emits [data], [end] and
    [error] only while it is neither destroyed nor finished, and nothing is
    delivered before the listeners are registered. *)
Definition live (s : session) : bool :=
  listening s && negb (finished s) && negb (destroyed s).

Definition dispatch (s : session) (e : event) : session :=
  match e with
  | UpstreamData chunk => if live s then on_data chunk s else s
  | UpstreamEnd => if live s then on_end (finish s) else s
  | UpstreamError message => if live s then on_error message (finish s) else s
  | ClientClose => if listening s then on_close s else s
  end.

Definition run (s : session) (events : list event) : session :=
  fold_left dispatch events s.

(** Lines 96 to 101. *)
Definition stream_headers (s : session) : session :=
  flushHeaders
    (setHeader "Access-Control-Allow-Origin" "*"
    (setHeader "Connection" "keep-alive"
    (setHeader "Cache-Control" "no-cache"
    (setHeader "Content-Type" "text/event-stream" s)))).

Definition json_headers (s : session) : session :=
  setHeader "Access-Control-Allow-Origin" "*"
    (setHeader "Content-Type" "application/json" s).

(** Lines 113 to 157: the call of the upstream and what follows it. A
    response that is not [ok] is thrown as an [Error] and lands in the same
    [catch] as a rejected [fetch]. *)
Definition relay (outcome : fetch_outcome) (events : list event) (s : session)
  : session :=
  let failed (message : jsstring) :=
    end_ (write Done (write (ErrorFrame message None) s)) in
  match outcome with
  | FetchRejects message => failed message
  | FetchResolves status statusText =>
      if negb (ok status) then
        failed (lit "API Error: " ++ decimal status ++ lit " " ++ statusText)
      else run (listen s) events
  end.

(** The handler ([module.exports]). The second component is the body of
    the request made to the upstream, when one is made. *)
Definition handler `{Platform} (apiKey : option jsstring) (request : Http.request)
    (outcome : fetch_outcome) (events : list event) : session * option object :=
  if bool_decide (method request = "OPTIONS") then
    (status_end 204
       (setHeader "Access-Control-Allow-Methods" "POST, OPTIONS"
       (setHeader "Access-Control-Allow-Headers" "Content-Type, Authorization"
       (setHeader "Access-Control-Allow-Origin" "*" fresh))), None)
  else if negb (bool_decide (method request = "POST")) then
    (status_json 405 (lit "Method Not Allowed") None
       (setHeader "Allow" "POST" (json_headers fresh)), None)
  else if key_missing apiKey then
    (status_json 500 (lit "API key not configured")
       (Some (lit "Please set FIREWORKS_API_KEY in your Vercel environment variables"))
       (json_headers fresh), None)
  else
    match body request with
    | Malformed message =>
        (status_json 400 (lit "Invalid JSON in request body") (Some message)
           (json_headers fresh), None)
    | Parsed v =>
        match properties v with
        | None =>
            let message := TypeError_message "model" in
            (status_json 500
               (if str_truthy message then message else lit "Unknown error")
               (Some message) (json_headers fresh), None)
        | Some requestBody =>
            let cleanedParams := cleanedParams requestBody in
            (relay outcome events (stream_headers fresh),
             Some (JSON_stringify cleanedParams))
        end
    end.

End Streaming.

(** ** Reads as bytes *)

Module Decoding.

Section Decoder.

(** A streaming text decoder is a transducer that is fed one byte at a
    time: [feed d b] is its next state and the code units it gives out. *)
Context {D : Type} (feed : D -> N -> D * jsstring).

(** [decoder.decode(value, {stream: true})] on one read. *)
Fixpoint decode (d : D) (value : list N) : D * jsstring :=
  match value with
  | [] => (d, [])
  | b :: value' =>
      let '(d1, t1) := feed d b in
      let '(d2, t2) := decode d1 value' in
      (d2, t1 ++ t2)
  end.

(** The texts of successive reads, the decoder being kept between them. *)
Fixpoint decode_reads (d : D) (chunks : list (list N)) : list jsstring :=
  match chunks with
  | [] => []
  | value :: chunks' =>
      let '(d', t) := decode d value in
      t :: decode_reads d' chunks'
  end.

End Decoder.

(** The decoder that takes every byte for the code unit of the same
    number (ISO 8859-1); it has no state. *)
Definition latin1 (d : unit) (b : N) : unit * jsstring := (d, [b]).

End Decoding.

Import Decoding.

(** ** Lines of a text *)

(** The lines of a text that are followed by a terminator, and what comes
    after the last terminator. *)
Definition complete_lines (text : jsstring) : list jsstring :=
  removelast (split_lines text).

Definition carry_over (text : jsstring) : jsstring :=
  default [] (list.last (split_lines text)).

(** A line that [trim] does not empty. *)
Definition not_blank (line : jsstring) : bool := str_truthy (trim line).

(** The lines the edge relay passes on: the terminated lines that are not
    blank, then the unterminated rest of the text when it is not the empty
    string. *)
Definition kept_lines (text : jsstring) : list jsstring :=
  filter (fun l => not_blank l = true) (complete_lines text)
  ++ (if str_truthy (carry_over text) then [carry_over text] else []).

(** The lines of a text that are not the empty string, and those that are
    not blank. *)
Definition nonempty_lines (text : jsstring) : list jsstring :=
  filter (fun l => str_truthy l = true) (split_lines text).

Definition nonblank_lines (text : jsstring) : list jsstring :=
  filter (fun l => not_blank l = true) (split_lines text).

(** The state of the loop once the text [s] has been read: the rest after
    the last terminator, and the frames of the terminated lines. *)
Definition loop_state (s : jsstring) : jsstring * list frame :=
  (carry_over s, flat_map StreamingEdge.frames_of_line (complete_lines s)).

(** ** A platform for the examples *)

(** The examples below are run on this platform. None of them has a string,
    an array or an object where a number is expected, and none of their
    messages holds a character that JSON escapes, so the platform's share in
    them is the quotation marks around a message. *)
Definition example_platform : Platform := {|
  StringToNumber := fun _ => NaN;
  ObjectToNumber := fun _ => NaN;
  JSON_quote := fun s => [quote_mark] ++ s ++ [quote_mark];
  TypeError_message := fun k =>
    lit "Cannot read properties of null (reading '" ++ lit k ++ lit "')"
|}.

(** ** Inputs of the examples *)

(** The body [{model: "m", messages: [{role: "user", content: "hi"}]}]. *)
Definition example_messages : value :=
  VArr [VObj (<["role" := VStr (lit "user")]> {["content" := VStr (lit "hi")]})].

Definition example_body : object :=
  <["model" := VStr (lit "m")]> {["messages" := example_messages]}.



Definition example_request (requestBody : object) : request :=
  {| method := "POST"; body := Parsed (VObj requestBody) |}.

Definition example_key : option jsstring := Some (lit "key").

(** ** Sessions of the Node relay once the stream has begun *)

(** The session after lines 96 to 101 and the registration of the
    listeners, with the frames written so far and the three flags. *)
Definition streaming (frames : list frame) (is_ended is_finished is_destroyed : bool)
  : Streaming.session :=
  {| Streaming.statusCode := 200;
     Streaming.resHeaders := Streaming.resHeaders (Streaming.stream_headers Streaming.fresh);
     Streaming.headersSent := true;
     Streaming.jsonBody := None;
     Streaming.written := frames;
     Streaming.ended := is_ended;
     Streaming.listening := true;
     Streaming.finished := is_finished;
     Streaming.destroyed := is_destroyed |}.

(** ** Words for the statements about normalisation *)

(** The sampling parameters with their defaults. *)
Definition sampling_defaults : list (string * value) :=
  [ ("temperature", VNum (dec 6 10));
    ("top_p", VNum (int 1));
    ("top_k", VNum (int 40));
    ("presence_penalty", VNum (int 0));
    ("frequency_penalty", VNum (int 0)) ].

(** A number that lies between two integers. *)
Definition within (n : number) (lo hi : Z) : Prop :=
  exists q, n = Fin q
            /\ (Q2Qc (inject_Z lo) <= q)%Qc /\ (q <= Q2Qc (inject_Z hi))%Qc.

(** [Number.isFinite(n)]: the numbers that [JSON.stringify] writes as
    they are. [JSON.parse] yields an infinity for a literal that overflows,
    such as [1e999]. *)
Definition is_finite (n : number) : bool :=
  match n with Fin _ => true | NaN | Infinity _ => false end.

(** ** Words for the statements about sequences of writes *)

(** The statuses of a response that has no body, for which
    [response.body] is [null] (Fetch Standard, null body status). The edge
    relay is followed on the responses that have a body. *)
Definition null_body_status (status : N) : bool :=
  bool_decide (status ∈ [101; 103; 204; 205; 304]%N).

Definition has_body (outcome : StreamingEdge.fetch_outcome) : Prop :=
  match outcome with
  | StreamingEdge.FetchRejects _ => True
  | StreamingEdge.FetchResolves r => null_body_status (StreamingEdge.up_status r) = false
  end.

(** What a relay adds to the upstream's data at the end of a stream:
    nothing, its done marker, or one error frame, which the Node relay
    lets the done marker follow. *)
Definition node_closing (tail : list frame) : Prop :=
  tail = [] \/ tail = [Done] \/ exists message, tail = [ErrorFrame message None; Done].

Definition edge_closing (tail : list frame) : Prop :=
  tail = [] \/ tail = [Done] \/ exists message details, tail = [ErrorFrame message details].

(** [lines.join('\n')], the inverse of [split_lines]. *)
Fixpoint join_lines (lines : list jsstring) : jsstring :=
  match lines with
  | [] => []
  | [l] => l
  | l :: lines' => l ++ LF :: join_lines lines'
  end.

(** A write that is one event of an event stream: its text starts with
    the field name [data:] and ends with a blank line, and the line it
    carries, when it is a data frame, is not empty and holds no line
    terminator. *)
Definition one_event `{Platform} (f : frame) : Prop :=
  startsWith (lit "data:") (render f) = true
  /\ (exists payload, render f = payload ++ [LF; LF])
  /\ (forall l, relayed_line f = Some l -> (LF ∉ l) /\ l <> []).

(** The names of the properties that the Node relay copies into
    [cleanedParams], and of those that the edge relay sets. *)
Definition cleaned_names : list string :=
  [ "model"; "messages"; "max_tokens"; "temperature"; "top_p"; "top_k";
    "presence_penalty"; "frequency_penalty"; "stream" ].

Definition normalized_names : list string :=
  [ "stream"; "max_tokens"; "top_p"; "top_k"; "presence_penalty";
    "frequency_penalty"; "temperature" ].

(** ** The non-streaming proxy, [src/api/proxy.js] *)

Module Proxy.

(** An error that is thrown, or that a promise rejects with. *)
Record js_error : Type := {
  name : jsstring;
  message : jsstring
}.

(** The outcome of an operation that may throw. *)
Inductive attempt (A : Type) : Type :=
| Throws (e : js_error)
| Returns (a : A).
Arguments Throws {A} e.
Arguments Returns {A} a.

(** The upstream's answer: [up_text] is what [response.text()] gives and
    [up_json] what [response.json()] gives. *)
Record upstream_response : Type := {
  up_status : N;
  up_statusText : jsstring;
  up_text : attempt jsstring;
  up_json : attempt value
}.

Inductive fetch_outcome : Type :=
| FetchRejects (e : js_error)
| FetchResolves (r : upstream_response).

(** The message of the [TypeError] raised when a property that is not a
    function is called. *)
Class Runtime : Type := {
  not_a_function : string -> jsstring
}.

(** What the handler answers. *)
Inductive reply_body : Type :=
| NoBody
| Failure (error : jsstring) (message : option jsstring) (details : option jsstring)
| Data (data : value).

Record reply : Type := {
  code : N;
  reply_headers : gmap string string;
  reply_content : reply_body
}.

(** [hay.includes(needle)] on strings. *)
Fixpoint includes (needle hay : jsstring) : bool :=
  startsWith needle hay
  || match hay with
     | [] => false
     | _ :: hay' => includes needle hay'
     end.

(** [v[0]] for a value that is neither [null] nor [undefined]. *)
Definition element0 (v : value) : value :=
  match v with
  | VArr (x :: _) => x
  | VStr (c :: _) => VStr [c]
  | VObj o => get o "0"
  | _ => VUndefined
  end.

(** [v.k] for a value that is neither [null] nor [undefined], [k] being
    none of the built-in properties of strings, numbers and arrays. *)
Definition property (v : value) (k : string) : value :=
  match v with
  | VObj o => get o k
  | _ => VUndefined
  end.

(** [systemPrompt.includes(phrase)]: the substring test of a string, the
    membership test of an array; on anything else [includes] is not a
    function, and the call throws ([None]). *)
Definition prompt_includes (systemPrompt : value) (phrase : jsstring) : option bool :=
  match systemPrompt with
  | VStr s => Some (includes phrase s)
  | VArr elems =>
      Some (existsb (fun e => match e with
                              | VStr t => bool_decide (t = phrase)
                              | _ => false
                              end) elems)
  | _ => None
  end.

Inductive reasoning : Type := Standard | CoD | CoT.

Definition reasoning_name (r : reasoning) : jsstring :=
  match r with
  | Standard => lit "Standard"
  | CoD => lit "CoD"
  | CoT => lit "CoT"
  end.

(** Lines 60 to 69; [None] when the [includes] call throws. *)
Definition reasoningMethod (requestBody : object) : option reasoning :=
  let messages := get requestBody "messages" in
  if truthy messages && truthy (element0 messages)
     && truthy (property (element0 messages) "content")
  then
    let systemPrompt := property (element0 messages) "content" in
    match prompt_includes systemPrompt (lit "Chain of Draft") with
    | None => None
    | Some true => Some CoD
    | Some false =>
        match prompt_includes systemPrompt (lit "Chain of Thought") with
        | None => None
        | Some true => Some CoT
        | Some false => Some Standard
        end
    end
  else Some Standard.

(** Lines 123 to 129: the metrics are added to an answer that is an object
    without a truthy [error]. The file is a CommonJS module with no
    [use strict] directive, so that an assignment to a property of a number,
    a string or a boolean is without effect; and a property added to an
    array is not written by [JSON.stringify]. *)
Definition with_performance (data : value) (responseTime : number) (r : reasoning)
  : value :=
  match data with
  | VObj d =>
      if negb (truthy (get d "error")) then
        VObj (<["performance" :=
                  VObj (<["response_time_ms" := VNum responseTime]>
                        {["reasoning_method" := VStr (reasoning_name r)]})]> d)
      else data
  | _ => data
  end.

Definition preflight_headers : gmap string string :=
  <[ "Access-Control-Allow-Methods" := "POST, OPTIONS" ]>
  (<[ "Access-Control-Allow-Headers" := "Content-Type, Authorization" ]> cors).

Definition success_headers : gmap string string :=
  <[ "Cache-Control" := "no-cache, no-store, must-revalidate" ]> Http.json_headers.

(** Lines 137 to 162: the [catch] around the call of the upstream. *)
Definition failed (e : js_error) : reply :=
  if bool_decide (name e = lit "AbortError") then
    {| code := 504; reply_headers := Http.json_headers;
       reply_content :=
         Failure (lit "Gateway Timeout")
           (Some (lit "The request to the LLM API took too long to complete (>120 seconds). Try reducing complexity or using fewer tokens."))
           None |}
  else
    {| code := 500; reply_headers := Http.json_headers;
       reply_content := Failure (lit "Request Failed") (Some (message e)) None |}.

(** Lines 86 to 136: the call of the upstream and what is made of its
    answer. *)
Definition answer (outcome : fetch_outcome) (responseTime : number) (r : reasoning)
  : reply :=
  match outcome with
  | FetchRejects e => failed e
  | FetchResolves response =>
      if negb (ok (up_status response)) then
        match up_text response with
        | Throws e => failed e
        | Returns errorText =>
            {| code := up_status response; reply_headers := Http.json_headers;
               reply_content :=
                 Failure (lit "API Error: " ++ up_statusText response) None
                   (Some errorText) |}
        end
      else
        match up_json response with
        | Throws e => failed e
        | Returns data =>
            {| code := 200; reply_headers := success_headers;
               reply_content := Data (with_performance data responseTime r) |}
        end
  end.

(** Lines 163 to 172: the [catch] around the parsing and the preparation
    of the request. *)
Definition bad_request (message : jsstring) : reply :=
  {| code := 400; reply_headers := Http.json_headers;
     reply_content :=
       Failure (lit "Bad Request")
         (Some (lit "Error processing request: " ++ message)) None |}.

(** [JSON.stringify(requestBody)], line 95, [normalized] being the
    properties of the body after lines 46 to 58. The properties are written
    for a body that is an object; an assignment to a property of a number, a
    string or a boolean is without effect (the module is not in strict
    mode), and a property added to an array is not written, so that any
    other body is written as it was parsed. *)
Definition stringify_body (v : value) (normalized : object) : value :=
  match v with
  | VObj _ => VObj (JSON_stringify normalized)
  | _ => default VNull (json_property v)
  end.

(** The handler ([module.exports]). [responseTime] is the time that the
    call of the upstream took, by the clock. The second component is the
    body of the request made to the upstream, when one is made. *)
Definition handler `{Platform} `{Runtime} (API_KEY : option jsstring)
    (request : Http.request) (outcome : fetch_outcome) (responseTime : number)
  : reply * option value :=
  if bool_decide (method request = "OPTIONS") then
    ({| code := 204; reply_headers := preflight_headers; reply_content := NoBody |}, None)
  else if negb (bool_decide (method request = "POST")) then
    ({| code := 405; reply_headers := <[ "Allow" := "POST" ]> Http.json_headers;
        reply_content := Failure (lit "Method Not Allowed") None None |}, None)
  else if key_missing API_KEY then
    ({| code := 500; reply_headers := Http.json_headers;
        reply_content := Failure (lit "API key not configured on server") None None |},
     None)
  else
    match body request with
    | Malformed message => (bad_request message, None)
    | Parsed v =>
        match properties v with
        | None => (bad_request (TypeError_message "model"), None)
        | Some requestBody =>
            let requestBody := proxy_normalize requestBody in
            match reasoningMethod requestBody with
            | None => (bad_request (not_a_function "includes"), None)
            | Some r =>
                (answer outcome responseTime r, Some (stringify_body v requestBody))
            end
        end
    end.

End Proxy.

(** ** Words for the statements about the proxy *)

(** A runtime for the examples. *)
Definition example_runtime : Proxy.Runtime := {|
  Proxy.not_a_function := fun k => lit "systemPrompt." ++ lit k ++ lit " is not a function"
|}.

(** The content of the first message, when line 62 finds one. *)
Definition first_content (o : object) : option value :=
  let messages := get o "messages" in
  let content := Proxy.property (Proxy.element0 messages) "content" in
  if truthy messages && truthy (Proxy.element0 messages) && truthy content
  then Some content else None.


(** The text [needle] occurs in the text [hay]. *)
Definition occurs_in (needle hay : jsstring) : Prop :=
  exists before after, hay = before ++ needle ++ after.

(** The names of the properties that the proxy sets. *)
Definition proxy_names : list string :=
  [ "max_tokens"; "top_p"; "top_k"; "presence_penalty"; "frequency_penalty";
    "temperature" ].

(** A body with a system prompt. *)
Definition prompt_body (systemPrompt : value) : object :=
  <["model" := VStr (lit "m")]>
  {["messages" := VArr [VObj (<["role" := VStr (lit "system")]>
                               {["content" := systemPrompt]})]]}.

(** * Properties *)

(** ** Splitting into lines *)

Lemma split_lines_snoc (s : jsstring) :
  exists init tl, split_lines s = init ++ [tl].
Proof.
  induction s as [|c s [init [tl IH]]]; simpl.
  - exists [], []. reflexivity.
  - destruct (c =? LF)%N.
    + exists ([] :: init), tl. rewrite IH. reflexivity.
    + rewrite IH. destruct init as [|l init]; simpl.
      * exists [], (c :: tl). reflexivity.
      * exists ((c :: l) :: init), tl. reflexivity.
Qed.

Lemma pop_or_empty_last (lines : list jsstring) :
  StreamingEdge.pop_or_empty lines = default [] (list.last lines).
Proof.
  unfold StreamingEdge.pop_or_empty.
  destruct (list.last lines) as [[|c l]|]; reflexivity.
Qed.

Lemma split_lines_parts (s : jsstring) :
  split_lines s = complete_lines s ++ [carry_over s].
Proof.
  unfold complete_lines, carry_over.
  destruct (split_lines_snoc s) as [init [tl ->]].
  rewrite removelast_last, last_snoc. reflexivity.
Qed.

Lemma parts_snoc (init : list jsstring) (tl : jsstring) :
  removelast (init ++ [tl]) = init
  /\ default [] (list.last (init ++ [tl])) = tl.
Proof. rewrite removelast_last, last_snoc. split; reflexivity. Qed.

Lemma split_lines_app (a b : jsstring) :
  split_lines (a ++ b) = complete_lines a ++ split_lines (carry_over a ++ b).
Proof.
  unfold complete_lines, carry_over.
  induction a as [|c a IH]; [reflexivity|].
  destruct (split_lines_snoc a) as [init [tl Ha]].
  rewrite Ha in IH. destruct (parts_snoc init tl) as [-> ->] in IH.
  cbn [app split_lines]. rewrite IH, Ha.
  destruct (c =? LF)%N eqn:E.
  - destruct (parts_snoc ([] :: init) tl) as [H1 H2].
    cbn [app] in H1, H2. rewrite H1, H2. reflexivity.
  - destruct init as [|l init].
    + destruct (parts_snoc [] (c :: tl)) as [H1 H2].
      cbn [app] in *. rewrite H1, H2.
      cbn [app split_lines]. rewrite E. reflexivity.
    + destruct (parts_snoc ((c :: l) :: init) tl) as [H1 H2].
      cbn [app] in *. rewrite H1, H2. reflexivity.
Qed.

Lemma complete_lines_app (a b : jsstring) :
  complete_lines (a ++ b) = complete_lines a ++ complete_lines (carry_over a ++ b).
Proof.
  unfold complete_lines at 1. rewrite split_lines_app.
  rewrite (split_lines_parts (carry_over a ++ b)), app_assoc.
  rewrite removelast_last. reflexivity.
Qed.

Lemma carry_over_app (a b : jsstring) :
  carry_over (a ++ b) = carry_over (carry_over a ++ b).
Proof.
  unfold carry_over at 1. rewrite split_lines_app.
  rewrite (split_lines_parts (carry_over a ++ b)), app_assoc.
  rewrite last_snoc. reflexivity.
Qed.

Lemma carry_over_complete (s : jsstring) : complete_lines (carry_over s) = [].
Proof.
  pose proof (complete_lines_app s []) as H.
  rewrite !app_nil_r in H.
  destruct (complete_lines (carry_over s)); [reflexivity|].
  apply (f_equal length) in H. rewrite length_app in H. simpl in H. lia.
Qed.

(** ** The read loop of the edge relay *)

Lemma read_step_loop_state (s value : jsstring) :
  StreamingEdge.read_step (loop_state s) value = loop_state (s ++ value).
Proof.
  unfold loop_state, StreamingEdge.read_step.
  rewrite pop_or_empty_last.
  fold (carry_over (carry_over s ++ value)).
  fold (complete_lines (carry_over s ++ value)).
  rewrite <- carry_over_app, (complete_lines_app s value), flat_map_app.
  reflexivity.
Qed.

Lemma read_loop (reads : list jsstring) (s : jsstring) :
  fold_left StreamingEdge.read_step reads (loop_state s)
  = loop_state (s ++ concat reads).
Proof.
  revert s. induction reads as [|value reads IH]; intros s; cbn [fold_left concat].
  - rewrite app_nil_r. reflexivity.
  - rewrite read_step_loop_state, IH, app_assoc. reflexivity.
Qed.

(** The writes of a session that reaches the end of the upstream data
    depend on the text read, not on the reads it came in. *)
Lemma relay_end_of_data (reads : list jsstring) :
  StreamingEdge.relay reads StreamingEdge.EndOfData
  = flat_map StreamingEdge.frames_of_line (complete_lines (concat reads))
    ++ (if str_truthy (carry_over (concat reads))
        then [Wrap (carry_over (concat reads))] else [])
    ++ [Done].
Proof.
  unfold StreamingEdge.relay.
  change (lit "", []) with (loop_state []).
  rewrite read_loop. reflexivity.
Qed.

Lemma relay_read_fails (reads : list jsstring) (message : jsstring) :
  StreamingEdge.relay reads (StreamingEdge.ReadFails message)
  = flat_map StreamingEdge.frames_of_line (complete_lines (concat reads))
    ++ [ErrorFrame (lit "Stream processing error: " ++ message) None].
Proof.
  unfold StreamingEdge.relay.
  change (lit "", []) with (loop_state []).
  rewrite read_loop. reflexivity.
Qed.

Lemma data_lines_app (fs gs : list frame) :
  data_lines (fs ++ gs) = data_lines fs ++ data_lines gs.
Proof. apply omap_app. Qed.

Lemma data_lines_frames_of_line (ls : list jsstring) :
  data_lines (flat_map StreamingEdge.frames_of_line ls)
  = filter (fun l => not_blank l = true) ls.
Proof.
  induction ls as [|l ls IH]; [reflexivity|].
  cbn [flat_map]. rewrite data_lines_app, IH, filter_cons.
  unfold StreamingEdge.frames_of_line.
  case_decide as Hb; unfold not_blank in Hb.
  - rewrite Hb. cbn [negb].
    destruct (startsWith (lit "data:") l); reflexivity.
  - apply not_true_is_false in Hb. rewrite Hb. reflexivity.
Qed.

(** ** The decoder *)

Lemma decode_app {D : Type} (feed : D -> N -> D * jsstring) (d : D) (a b : list N) :
  decode feed d (a ++ b)
  = (let '(d1, t1) := decode feed d a in
     let '(d2, t2) := decode feed d1 b in (d2, t1 ++ t2)).
Proof.
  revert d. induction a as [|x a IH]; intros d; simpl.
  - destruct (decode feed d b). reflexivity.
  - destruct (feed d x) as [d1 t1]. rewrite IH.
    destruct (decode feed d1 a) as [d2 t2].
    destruct (decode feed d2 b) as [d3 t3].
    rewrite app_assoc. reflexivity.
Qed.

Lemma decode_reads_concat {D : Type} (feed : D -> N -> D * jsstring) (d : D)
    (chunks : list (list N)) :
  concat (decode_reads feed d chunks) = (decode feed d (concat chunks)).2.
Proof.
  revert d. induction chunks as [|value chunks IH]; intros d; simpl.
  - reflexivity.
  - rewrite decode_app. destruct (decode feed d value) as [d1 t1]. simpl.
    rewrite IH. destruct (decode feed d1 (concat chunks)). reflexivity.
Qed.

(** ** C1: reassembly and the reads *)

(** C1, as amended. Whatever the decoder and however the upstream bytes
    are cut into reads, the edge relay writes the frames it would write had
    the whole stream come in one read, and the lines its data frames carry
    are the terminated lines that are not blank, in order, followed by the
    unterminated rest when that is not the empty string. *)
Theorem edge_relay_split_invariance {D : Type} (feed : D -> N -> D * jsstring)
    (d0 : D) (chunks : list (list N)) :
  let text := (decode feed d0 (concat chunks)).2 in
  StreamingEdge.relay (decode_reads feed d0 chunks) StreamingEdge.EndOfData
  = StreamingEdge.relay [text] StreamingEdge.EndOfData
  /\ data_lines (StreamingEdge.relay (decode_reads feed d0 chunks) StreamingEdge.EndOfData)
     = kept_lines text.
Proof.
  intros text. rewrite !relay_end_of_data, decode_reads_concat.
  fold text. cbn [concat]. rewrite app_nil_r. split; [reflexivity|].
  rewrite !data_lines_app, data_lines_frames_of_line. unfold kept_lines.
  destruct (str_truthy (carry_over text)); reflexivity.
Qed.

(** C1, as stated, fails whichever way "non-empty" is read. A terminated
    line holding one space is not the empty string, and is dropped; an
    unterminated rest holding one space is blank, and is passed on. *)
Lemma nonempty_lines_counterexample :
  data_lines (StreamingEdge.relay [lit " " ++ [LF]] StreamingEdge.EndOfData)
    <> nonempty_lines (lit " " ++ [LF])
  /\ data_lines (StreamingEdge.relay [lit " "] StreamingEdge.EndOfData)
    <> nonblank_lines (lit " ").
Proof. split; vm_compute; discriminate. Qed.

(** The scenario of two reads that cut a frame in two, as bytes. *)
Example carry_over_across_reads :
  StreamingEdge.relay
    (decode_reads latin1 tt
       [lit "data: {a:1}" ++ [LF; LF] ++ lit "da"; lit "ta: {b:2}" ++ [LF; LF]])
    StreamingEdge.EndOfData
  = [Forward (lit "data: {a:1}"); Forward (lit "data: {b:2}"); Done].
Proof. reflexivity. Qed.

(** A done line of the upstream's own is a line like any other: the relay
    passes it on as a data frame, which reads on the wire as the done marker
    that the relay writes after it. *)
Remark upstream_done_line `{Platform} :
  StreamingEdge.relay [lit "data: [DONE]" ++ [LF; LF]] StreamingEdge.EndOfData
  = [Forward (lit "data: [DONE]"); Done]
  /\ render (Forward (lit "data: [DONE]")) = render Done.
Proof. split; reflexivity. Qed.

(** ** C10: the flush of the carry-over *)

Lemma startsWith_app (p s : jsstring) : startsWith p (p ++ s) = true.
Proof.
  induction p as [|a p IH]; [reflexivity|].
  simpl. rewrite N.eqb_refl, IH. reflexivity.
Qed.

Lemma startsWith_prefix (p s : jsstring) :
  startsWith p s = true -> exists rest, s = p ++ rest.
Proof.
  revert s. induction p as [|a p IH]; intros s Hs.
  - exists s. reflexivity.
  - destruct s as [|b s]; [discriminate|]. simpl in Hs.
    apply andb_true_iff in Hs as [Hab Hp]. apply N.eqb_eq in Hab as ->.
    destruct (IH s Hp) as [rest ->]. exists rest. reflexivity.
Qed.

(** C10. When the text read ends in an unterminated rest that is not the
    empty string, the last two writes of the edge relay are that rest with
    the prefix put in front of it, and the done marker; the rest is not
    looked at, so one that starts with the prefix already goes out with the
    prefix twice, whereas a terminated line that starts with it is passed
    on as it is. *)
Theorem flush_prefixes_unconditionally `{Platform} (reads : list jsstring) :
  str_truthy (carry_over (concat reads)) = true ->
  (exists before,
     StreamingEdge.relay reads StreamingEdge.EndOfData
     = before ++ [Wrap (carry_over (concat reads)); Done])
  /\ render (Wrap (carry_over (concat reads)))
     = lit "data: " ++ carry_over (concat reads) ++ [LF; LF]
  /\ (startsWith (lit "data:") (carry_over (concat reads)) = true ->
      startsWith (lit "data: data:") (render (Wrap (carry_over (concat reads)))) = true)
  /\ (forall line, not_blank line = true -> startsWith (lit "data:") line = true ->
      StreamingEdge.frames_of_line line = [Forward line]
      /\ render (Forward line) = line ++ [LF; LF]).
Proof.
  intros Hrest. split; [|split; [|split]].
  - rewrite relay_end_of_data, Hrest. eexists. reflexivity.
  - reflexivity.
  - intros Hdata. apply startsWith_prefix in Hdata as [rest ->].
    apply (startsWith_app (lit "data: data:") (rest ++ [LF; LF])).
  - intros line Hline Hdata. unfold StreamingEdge.frames_of_line.
    unfold not_blank in Hline. rewrite Hline, Hdata. split; reflexivity.
Qed.

Lemma flush_prefixes_unconditionally_witness :
  str_truthy (carry_over (concat [lit "data: x"])) = true
  /\ StreamingEdge.relay [lit "data: x"] StreamingEdge.EndOfData
     = [Wrap (lit "data: x"); Done]
  /\ render (H := example_platform) (Wrap (lit "data: x"))
     = lit "data: data: x" ++ [LF; LF].
Proof.
  split; [reflexivity|].
  destruct (flush_prefixes_unconditionally (H := example_platform)
              [lit "data: x"] eq_refl) as [_ [Hrender _]].
  split; [reflexivity| exact Hrender].
Defined.

(** ** The writes of the edge relay *)

Lemma done_count_app (fs gs : list frame) :
  done_count (fs ++ gs) = (done_count fs + done_count gs)%nat.
Proof. unfold done_count. rewrite list.filter_app, length_app. reflexivity. Qed.

Lemma frames_of_line_no_done (ls : list jsstring) :
  done_count (flat_map StreamingEdge.frames_of_line ls) = 0%nat.
Proof.
  induction ls as [|l ls IH]; [reflexivity|].
  cbn [flat_map]. rewrite done_count_app, IH.
  unfold StreamingEdge.frames_of_line.
  destruct (negb (str_truthy (trim l))); [reflexivity|].
  destruct (startsWith (lit "data:") l); reflexivity.
Qed.

(** On the end of the upstream data the edge relay writes one done marker,
    and writes it last. *)
Lemma edge_end_of_data_done (reads : list jsstring) :
  done_count (StreamingEdge.relay reads StreamingEdge.EndOfData) = 1%nat
  /\ list.last (StreamingEdge.relay reads StreamingEdge.EndOfData) = Some Done.
Proof.
  rewrite relay_end_of_data. split.
  - rewrite !done_count_app, frames_of_line_no_done.
    destruct (str_truthy (carry_over (concat reads))); reflexivity.
  - rewrite !app_assoc. apply last_snoc.
Qed.

(** On a failed read, a failed [fetch] or an upstream status that is not
    [ok], it writes the error frame last and no done marker. *)
Lemma edge_error_paths_no_done :
  (forall reads message,
     done_count (StreamingEdge.relay reads (StreamingEdge.ReadFails message)) = 0%nat
     /\ exists e, is_error e = true
        /\ list.last (StreamingEdge.relay reads (StreamingEdge.ReadFails message)) = Some e)
  /\ (forall message,
     done_count (StreamingEdge.background (StreamingEdge.FetchRejects message)) = 0%nat)
  /\ (forall r, ok (StreamingEdge.up_status r) = false ->
     done_count (StreamingEdge.background (StreamingEdge.FetchResolves r)) = 0%nat).
Proof.
  split; [|split].
  - intros reads message. rewrite relay_read_fails. split.
    + rewrite done_count_app, frames_of_line_no_done. reflexivity.
    + eexists. split; [|apply last_snoc]. reflexivity.
  - reflexivity.
  - intros r Hr. unfold StreamingEdge.background. rewrite Hr. reflexivity.
Qed.

(** ** C2 and C3: the done marker on the error paths of the edge relay *)

(** C2, at an input where the code departs from it. The upstream answers
    503 to the edge relay: the relay writes one error frame and closes the
    stream, with no done marker. *)
Theorem edge_upstream_status_no_done `{Platform} :
  let r := (StreamingEdge.handler example_key (example_request example_body)
              (StreamingEdge.FetchResolves
                 {| StreamingEdge.up_status := 503;
                    StreamingEdge.up_statusText := lit "Service Unavailable";
                    StreamingEdge.up_text := Some (lit "overloaded");
                    StreamingEdge.reads := [];
                    StreamingEdge.ending := StreamingEdge.EndOfData |})).1 in
  content r
  = EventStream
      [ErrorFrame (lit "API Error: Service Unavailable") (Some (lit "overloaded"))]
      true
  /\ done_count (frames_written r) = 0%nat.
Proof. split; reflexivity. Qed.

(** C3, at an input where the code departs from it. The upstream body
    delivers one line to the edge relay and then fails: the relay writes
    the line's frame and one error frame and closes the stream, with no
    done marker after the error frame. *)
Theorem edge_read_error_no_done `{Platform} :
  let r := (StreamingEdge.handler example_key (example_request example_body)
              (StreamingEdge.FetchResolves
                 {| StreamingEdge.up_status := 200;
                    StreamingEdge.up_statusText := lit "OK";
                    StreamingEdge.up_text := None;
                    StreamingEdge.reads := [lit "data: x" ++ [LF]];
                    StreamingEdge.ending := StreamingEdge.ReadFails (lit "terminated") |})).1 in
  content r
  = EventStream
      [Forward (lit "data: x");
       ErrorFrame (lit "Stream processing error: terminated") None]
      true
  /\ list.last (frames_written r)
     = Some (ErrorFrame (lit "Stream processing error: terminated") None).
Proof. split; reflexivity. Qed.

(** ** The events of the Node relay *)

Lemma node_listening :
  Streaming.listen (Streaming.stream_headers Streaming.fresh)
  = streaming [] false false false.
Proof. reflexivity. Qed.

Lemma run_app (s : Streaming.session) (es1 es2 : list Streaming.event) :
  Streaming.run s (es1 ++ es2) = Streaming.run (Streaming.run s es1) es2.
Proof. apply fold_left_app. Qed.

(** While the stream is open every chunk delivered is written. *)
Lemma run_data (fs : list frame) (chunks : list jsstring) :
  Streaming.run (streaming fs false false false) (map Streaming.UpstreamData chunks)
  = streaming (fs ++ map Chunk chunks) false false false.
Proof.
  revert fs. induction chunks as [|c chunks IH]; intros fs.
  - cbn [map]. rewrite app_nil_r. reflexivity.
  - cbn [map Streaming.run fold_left].
    change (Streaming.dispatch (streaming fs false false false) (Streaming.UpstreamData c))
      with (streaming (fs ++ [Chunk c]) false false false).
    fold (Streaming.run (streaming (fs ++ [Chunk c]) false false false)
            (map Streaming.UpstreamData chunks)).
    rewrite IH, <- app_assoc. reflexivity.
Qed.

(** Once [res.end()] was called and the upstream body is finished or
    destroyed, no event changes what was written, and the response stays
    ended; a destroyed body stays destroyed. *)
Lemma run_closed (events : list Streaming.event) (fs : list frame) (f d : bool) :
  f || d = true ->
  exists d', Streaming.run (streaming fs true f d) events = streaming fs true f d'
             /\ (d = true -> d' = true).
Proof.
  revert d. induction events as [|e events IH]; intros d Hfd.
  - exists d. split; [reflexivity | tauto].
  - cbn [Streaming.run fold_left].
    assert (Streaming.dispatch (streaming fs true f d) e
            = streaming fs true f (match e with Streaming.ClientClose => true | _ => d end))
      as ->.
    { destruct e, f, d; try discriminate Hfd; reflexivity. }
    destruct (IH (match e with Streaming.ClientClose => true | _ => d end))
      as [d' [Hrun Hd']].
    { destruct e, f, d; try discriminate Hfd; reflexivity. }
    exists d'. split; [exact Hrun|].
    intros ->. apply Hd'. destruct e; reflexivity.
Qed.

(** The upstream body ends: the chunks, then the done marker, then
    [res.end()]; nothing that comes later is written. *)
Lemma node_end_of_data (chunks : list jsstring) (later : list Streaming.event) :
  let s := Streaming.run (streaming [] false false false)
             (map Streaming.UpstreamData chunks ++ Streaming.UpstreamEnd :: later) in
  Streaming.written s = map Chunk chunks ++ [Done]
  /\ Streaming.ended s = true.
Proof.
  cbn zeta. rewrite run_app, run_data. cbn [app Streaming.run fold_left].
  change (Streaming.dispatch (streaming (map Chunk chunks) false false false)
            Streaming.UpstreamEnd)
    with (streaming (map Chunk chunks ++ [Done]) true true false).
  destruct (run_closed later (map Chunk chunks ++ [Done]) true false eq_refl)
    as [d' [Hrun _]].
  unfold Streaming.run in Hrun. rewrite Hrun. split; reflexivity.
Qed.

(** The upstream body fails: the chunks, then one error frame, then the
    done marker, then [res.end()]. *)
Lemma node_stream_error (chunks : list jsstring) (message : jsstring)
    (later : list Streaming.event) :
  let s := Streaming.run (streaming [] false false false)
             (map Streaming.UpstreamData chunks
              ++ Streaming.UpstreamError message :: later) in
  Streaming.written s = map Chunk chunks ++ [ErrorFrame message None; Done]
  /\ Streaming.ended s = true.
Proof.
  cbn zeta. rewrite run_app, run_data. cbn [app Streaming.run fold_left].
  change (Streaming.dispatch (streaming (map Chunk chunks) false false false)
            (Streaming.UpstreamError message))
    with (streaming ((map Chunk chunks ++ [ErrorFrame message None]) ++ [Done])
            true true false).
  destruct (run_closed later ((map Chunk chunks ++ [ErrorFrame message None]) ++ [Done])
              true false eq_refl) as [d' [Hrun _]].
  unfold Streaming.run in Hrun. rewrite Hrun, <- app_assoc. split; reflexivity.
Qed.

(** The client closes the connection: the upstream body is destroyed and
    [res.end()] is called, with no write. *)
Lemma node_client_close (chunks : list jsstring) (later : list Streaming.event) :
  Streaming.run (streaming [] false false false)
    (map Streaming.UpstreamData chunks ++ Streaming.ClientClose :: later)
  = streaming (map Chunk chunks) true false true.
Proof.
  rewrite run_app, run_data. cbn [app Streaming.run fold_left].
  change (Streaming.dispatch (streaming (map Chunk chunks) false false false)
            Streaming.ClientClose)
    with (streaming (map Chunk chunks) true false true).
  destruct (run_closed later (map Chunk chunks) false true eq_refl)
    as [d' [Hrun Hd']].
  unfold Streaming.run in Hrun. rewrite Hrun, (Hd' eq_refl). reflexivity.
Qed.

Lemma chunks_no_done (chunks : list jsstring) : done_count (map Chunk chunks) = 0%nat.
Proof. induction chunks as [|c chunks IH]; [reflexivity | exact IH]. Qed.

(** ** Numbers *)

Lemma Qcle_total (p q : Qc) : ~ (p <= q)%Qc -> (q <= p)%Qc.
Proof. intros Hn. apply Qclt_le_weak, Qcnot_le_lt, Hn. Qed.

Ltac qc_cases :=
  repeat match goal with
    | |- context [bool_decide (?p <= ?q)%Qc] =>
        destruct (bool_decide_reflect (p <= q)%Qc)
    | H : context [bool_decide (?p <= ?q)%Qc] |- _ =>
        destruct (bool_decide_reflect (p <= q)%Qc)
    end.

Ltac qc_order :=
  solve [ reflexivity | discriminate | assumption
        | exfalso;
          match goal with
          | Hn : ~ (?p <= ?p)%Qc |- _ => exact (Hn (Qcle_refl p))
          | Hn : ~ (?p <= ?q)%Qc, H1 : (?p <= ?r)%Qc, H2 : (?r <= ?q)%Qc |- _ =>
              exact (Hn (Qcle_trans _ _ _ H1 H2))
          | Hn : ~ (?p <= ?q)%Qc, Hm : ~ (?q <= ?p)%Qc |- _ =>
              exact (Hm (Qcle_total _ _ Hn))
          end
        | f_equal; apply Qcle_antisym; first [assumption | apply Qcle_total; assumption] ].

(** Clamping a clamped number changes nothing. *)
Lemma clamp_number_idempotent (x : number) (hi : Z) :
  num_le (int 1) (int hi) = true ->
  Math_min (Math_max (int 1) (Math_min (Math_max (int 1) x) (int hi))) (int hi)
  = Math_min (Math_max (int 1) x) (int hi).
Proof.
  unfold int. generalize (Q2Qc (inject_Z 1)) (Q2Qc (inject_Z hi)). intros one top Hle.
  destruct x as [q| |[|]]; cbn in *; qc_cases; cbn; qc_cases; cbn; qc_cases; qc_order.
Qed.

(** A clamped number lies in the range, unless it is [NaN]. *)
Lemma clamp_number_within (x : number) (hi : Z) :
  x <> NaN -> num_le (int 1) (int hi) = true ->
  within (Math_min (Math_max (int 1) x) (int hi)) 1 hi.
Proof.
  unfold within, int. generalize (Q2Qc (inject_Z 1)) (Q2Qc (inject_Z hi)).
  intros one top Hx Hle.
  destruct x as [q| |[|]]; [| congruence | |];
    cbn in *; qc_cases; cbn; qc_cases;
    eexists; (split; [reflexivity|]); split;
    first [assumption | apply Qcle_refl | apply Qcle_total; assumption | discriminate].
Qed.

(** ** Reading properties after an update *)

Lemma get_insert_eq (o : object) (k : string) (v : value) : get (<[k := v]> o) k = v.
Proof. unfold get. rewrite lookup_insert_eq. reflexivity. Qed.

Lemma get_insert_ne (o : object) (k k' : string) (v : value) :
  k <> k' -> get (<[k := v]> o) k' = get o k'.
Proof. intros Hne. unfold get. rewrite lookup_insert_ne by exact Hne. reflexivity. Qed.

Lemma get_set_default_eq (o : object) (k : string) (d : value) :
  get (set_default k d o) k = if is_undefined (get o k) then d else get o k.
Proof.
  unfold set_default. destruct (is_undefined (get o k)); [apply get_insert_eq | reflexivity].
Qed.

Lemma get_set_default_ne (o : object) (k k' : string) (d : value) :
  k <> k' -> get (set_default k d o) k' = get o k'.
Proof.
  intros Hne. unfold set_default.
  destruct (is_undefined (get o k)); [apply get_insert_ne, Hne | reflexivity].
Qed.

Lemma set_default_defined (o : object) (k : string) (d : value) :
  is_undefined (get o k) = false -> set_default k d o = o.
Proof. intros Hk. unfold set_default. rewrite Hk. reflexivity. Qed.

Lemma insert_get (o : object) (k : string) (v : value) :
  is_undefined v = false -> get o k = v -> <[k := v]> o = o.
Proof.
  intros Hv Hk. apply insert_id. unfold get in Hk.
  destruct (o !! k) as [w|]; simpl in Hk; subst; [reflexivity | discriminate].
Qed.

(** What [JSON.stringify] writes for a property is read off the property. *)
Lemma JSON_stringify_lookup (o : object) (k : string) :
  JSON_stringify o !! k = json_property (get o k).
Proof.
  unfold JSON_stringify, get. rewrite lookup_omap.
  destruct (o !! k); reflexivity.
Qed.

Ltac get_simpl :=
  repeat first
    [ rewrite get_insert_eq
    | rewrite get_set_default_eq
    | rewrite get_insert_ne by discriminate
    | rewrite get_set_default_ne by discriminate ].

(** ** The edge normaliser, property by property *)

Lemma edge_normalize_stream `{Platform} (o : object) :
  get (edge_normalize o) "stream" = VBool true.
Proof. unfold edge_normalize. get_simpl. reflexivity. Qed.

Lemma edge_normalize_max_tokens `{Platform} (o : object) :
  get (edge_normalize o) "max_tokens"
  = VNum (clamp (if is_undefined (get o "max_tokens")
                 then VNum (int 4008) else get o "max_tokens") 8192).
Proof. unfold edge_normalize. get_simpl. reflexivity. Qed.

Lemma edge_normalize_sampling `{Platform} (o : object) :
  Forall (fun kd => get (edge_normalize o) kd.1
                    = if is_undefined (get o kd.1) then kd.2 else get o kd.1)
         sampling_defaults.
Proof.
  unfold sampling_defaults, edge_normalize.
  repeat constructor; cbn [fst snd]; get_simpl; reflexivity.
Qed.

(** ** The cleaned parameters of the Node relay, property by property *)

Lemma get_filter_nullish (m : object) (k : string) :
  get (filter (fun kv => is_nullish kv.2 = false) m) k
  = if is_nullish (get m k) then VUndefined else get m k.
Proof.
  unfold get. rewrite map_lookup_filter.
  destruct (m !! k) as [v|]; [|reflexivity]. cbn.
  destruct (is_nullish v) eqn:Hv.
  - rewrite option_guard_False by (cbn; congruence). reflexivity.
  - rewrite option_guard_True by (cbn; congruence). reflexivity.
Qed.

Ltac cleaned_get :=
  unfold cleanedParams; rewrite get_filter_nullish;
  cbn [list_to_map foldr fst snd]; get_simpl.

Lemma get_stream_default (o : object) (k : string) :
  k <> "stream" ->
  get (if is_undefined (get o "stream") then <["stream" := VBool true]> o else o) k
  = get o k.
Proof.
  intros Hk. destruct (is_undefined (get o "stream")); [|reflexivity].
  apply get_insert_ne. congruence.
Qed.

Lemma cleanedParams_stream `{Platform} (o : object) :
  get (cleanedParams o) "stream" = VBool true.
Proof. cleaned_get. reflexivity. Qed.

Lemma cleanedParams_max_tokens `{Platform} (o : object) :
  get (cleanedParams o) "max_tokens"
  = VNum (clamp (or_else (get o "max_tokens") (VNum (int 4008))) 40000).
Proof.
  cleaned_get. cbn [is_nullish]. unfold validatedMaxTokens.
  rewrite get_stream_default by discriminate. reflexivity.
Qed.

Lemma cleanedParams_sampling `{Platform} (o : object) :
  Forall (fun kd => get (cleanedParams o) kd.1
                    = if is_undefined (get o kd.1) then kd.2
                      else if is_nullish (get o kd.1) then VUndefined
                      else get o kd.1)
         sampling_defaults.
Proof.
  unfold sampling_defaults.
  repeat constructor; cbn [fst snd]; cleaned_get;
    rewrite get_stream_default by discriminate; unfold supplied_or;
    match goal with |- context [is_undefined ?v] => destruct v as [| | | | | |] end;
    reflexivity.
Qed.

(** ** C6: [max_tokens] *)

(** The default, the range and the three sample inputs, for a
    [max_tokens] that is missing or a number. A zero sent to the Node relay
    is not among them: see [max_tokens_zero]. *)
Lemma max_tokens_sent `{Platform} (o : object) :
  (is_undefined (get o "max_tokens") = true ->
     JSON_stringify (edge_normalize o) !! "max_tokens" = Some (VNum (int 4008))
     /\ JSON_stringify (cleanedParams o) !! "max_tokens" = Some (VNum (int 4008)))
  /\ (forall n, get o "max_tokens" = VNum n -> n <> NaN ->
     (exists r, JSON_stringify (edge_normalize o) !! "max_tokens" = Some (VNum r)
                /\ within r 1 8192)
     /\ (exists r, JSON_stringify (cleanedParams o) !! "max_tokens" = Some (VNum r)
                   /\ within r 1 40000))
  /\ (get o "max_tokens" = VNum (int 0) ->
     JSON_stringify (edge_normalize o) !! "max_tokens" = Some (VNum (int 1)))
  /\ (get o "max_tokens" = VNum (int 999999) ->
     JSON_stringify (edge_normalize o) !! "max_tokens" = Some (VNum (int 8192))
     /\ JSON_stringify (cleanedParams o) !! "max_tokens" = Some (VNum (int 40000)))
  /\ (get o "max_tokens" = VNum (int 500) ->
     JSON_stringify (edge_normalize o) !! "max_tokens" = Some (VNum (int 500))
     /\ JSON_stringify (cleanedParams o) !! "max_tokens" = Some (VNum (int 500))).
Proof.
  rewrite !JSON_stringify_lookup, edge_normalize_max_tokens, cleanedParams_max_tokens.
  split; [|split; [|split; [|split]]].
  - intros Hu. rewrite Hu. destruct (get o "max_tokens"); try discriminate Hu.
    split; reflexivity.
  - intros n Hn Hnan. rewrite Hn. cbn [is_undefined]. split.
    + destruct (clamp_number_within n 8192 Hnan eq_refl) as [q [Hq Hr]].
      exists (Fin q). unfold clamp. cbn [ToNumber]. rewrite Hq.
      split; [reflexivity|]. exists q. split; [reflexivity | exact Hr].
    + unfold or_else. destruct (truthy (VNum n)).
      * destruct (clamp_number_within n 40000 Hnan eq_refl) as [q [Hq Hr]].
        exists (Fin q). unfold clamp. cbn [ToNumber]. rewrite Hq.
        split; [reflexivity|]. exists q. split; [reflexivity | exact Hr].
      * exists (int 4008). split; [reflexivity|].
        eexists. split; [reflexivity|]. split; vm_compute; discriminate.
  - intros ->. reflexivity.
  - intros ->. split; reflexivity.
  - intros ->. split; reflexivity.
Qed.

(** C6, at an input where the code departs from it. A request with
    [max_tokens: 0]: the edge relay sends 1 to the upstream, and the Node
    relay, which takes a zero for a missing value, sends the default
    4008. *)
Theorem max_tokens_zero `{Platform} (outcome : Streaming.fetch_outcome)
    (events : list Streaming.event) (edge_outcome : StreamingEdge.fetch_outcome) :
  (Streaming.handler example_key
     (example_request (<["max_tokens" := VNum (int 0)]> example_body))
     outcome events).2 ≫= (fun sent => sent !! "max_tokens")
  = Some (VNum (int 4008))
  /\ (StreamingEdge.handler example_key
        (example_request (<["max_tokens" := VNum (int 0)]> example_body))
        edge_outcome).2 ≫= (fun sent => sent !! "max_tokens")
     = Some (VNum (int 1)).
Proof.
  set (o := <["max_tokens" := VNum (int 0)]> example_body).
  split.
  - change ((Streaming.handler example_key (example_request o) outcome events).2)
      with (Some (JSON_stringify (cleanedParams o))).
    cbn [mbind option_bind]. subst o.
    rewrite JSON_stringify_lookup, cleanedParams_max_tokens. get_simpl. reflexivity.
  - change ((StreamingEdge.handler example_key (example_request o) edge_outcome).2)
      with (Some (JSON_stringify (edge_normalize o))).
    cbn [mbind option_bind]. subst o.
    rewrite JSON_stringify_lookup, edge_normalize_max_tokens. get_simpl.
    reflexivity.
Qed.

(** ** C7: the sampling parameters and [stream] *)

(** C7, as amended. In the request that either relay sends to the
    upstream, [stream] is [true] whatever the caller sent, and each sampling
    parameter that the caller left out has its default. A parameter that
    the caller supplied is never replaced by the default: a [null] is
    deleted by the Node relay and passed on by the edge relay; any other
    value goes to [JSON.stringify] as the caller sent it, so that a finite
    number, a boolean and a string are sent as they are, and a number that
    is not finite is sent as [null]. *)
Theorem sampling_parameters_sent `{Platform} (o : object) :
  Forall (fun kd =>
            let v := get o kd.1 in
            let edge := JSON_stringify (edge_normalize o) !! kd.1 in
            let node := JSON_stringify (cleanedParams o) !! kd.1 in
            (v = VUndefined -> edge = Some kd.2 /\ node = Some kd.2)
            /\ (v = VNull -> edge = Some VNull /\ node = None)
            /\ (is_nullish v = false ->
                 edge = json_property v /\ node = json_property v)
            /\ (forall n, v = VNum n ->
                 edge = Some (if is_finite n then VNum n else VNull)
                 /\ node = Some (if is_finite n then VNum n else VNull))
            /\ (forall b, v = VBool b -> edge = Some v /\ node = Some v)
            /\ (forall s, v = VStr s -> edge = Some v /\ node = Some v))
         sampling_defaults
  /\ JSON_stringify (edge_normalize o) !! "stream" = Some (VBool true)
  /\ JSON_stringify (cleanedParams o) !! "stream" = Some (VBool true).
Proof.
  split; [|split].
  - pose proof (edge_normalize_sampling o) as He.
    pose proof (cleanedParams_sampling o) as Hn.
    assert (Forall (fun kd => json_property kd.2 = Some kd.2) sampling_defaults) as Hd.
    { unfold sampling_defaults. repeat constructor. }
    rewrite Forall_forall in He, Hn, Hd. apply Forall_forall.
    intros [k d] Hin.
    specialize (He _ Hin). specialize (Hn _ Hin). specialize (Hd _ Hin).
    cbn [fst snd] in *. rename He into Hek, Hn into Hnk, Hd into Hjd.
    cbn zeta. rewrite !JSON_stringify_lookup, Hek, Hnk.
    split; [|split; [|split; [|split; [|split]]]].
    + intros ->. split; exact Hjd.
    + intros ->. split; reflexivity.
    + intros Hv. destruct (get o k); try discriminate Hv; split; reflexivity.
    + intros n ->. destruct n as [q| |negative]; split; reflexivity.
    + intros b ->. split; reflexivity.
    + intros s ->. split; reflexivity.
  - rewrite JSON_stringify_lookup, edge_normalize_stream. reflexivity.
  - rewrite JSON_stringify_lookup, cleanedParams_stream. reflexivity.
Qed.

(** C7, as stated, fails for a caller that sends [temperature: null]: the
    Node relay sends no [temperature] at all, and the edge relay sends the
    [null]. *)
Lemma null_temperature_counterexample :
  JSON_stringify
    (cleanedParams (H := example_platform) (<["temperature" := VNull]> example_body))
    !! "temperature" = None
  /\ JSON_stringify
       (edge_normalize (H := example_platform) (<["temperature" := VNull]> example_body))
       !! "temperature" = Some VNull.
Proof. split; vm_compute; reflexivity. Qed.

(** A caller that sends [temperature: 1e999]: the body parses to an
    infinity, which both relays keep and [JSON.stringify] writes as
    [null]. *)
Example overflowing_temperature `{Platform} :
  JSON_stringify (cleanedParams (<["temperature" := VNum (Infinity false)]> example_body))
    !! "temperature" = Some VNull
  /\ JSON_stringify (edge_normalize (<["temperature" := VNum (Infinity false)]> example_body))
       !! "temperature" = Some VNull.
Proof. split; vm_compute; reflexivity. Qed.

(** The scenario of a caller that sends a model and messages only. *)
Example defaults_filled_in `{Platform} :
  JSON_stringify (edge_normalize example_body)
  = <["model" := VStr (lit "m")]>
    (<["messages" := example_messages]>
    (<["max_tokens" := VNum (int 4008)]>
    (<["temperature" := VNum (dec 6 10)]>
    (<["top_p" := VNum (int 1)]>
    (<["top_k" := VNum (int 40)]>
    (<["presence_penalty" := VNum (int 0)]>
    (<["frequency_penalty" := VNum (int 0)]>
    {["stream" := VBool true]}))))))).
Proof. vm_compute. reflexivity. Qed.

(** ** C9: normalising twice *)

Lemma proxy_normalize_max_tokens `{Platform} (o : object) :
  get (proxy_normalize o) "max_tokens"
  = if is_undefined (get o "max_tokens") then VNum (int 4008)
    else VNum (clamp (get o "max_tokens") 40000).
Proof.
  unfold proxy_normalize. get_simpl.
  destruct (is_undefined (get o "max_tokens")); apply get_insert_eq.
Qed.

Lemma proxy_normalize_sampling `{Platform} (o : object) :
  Forall (fun kd => get (proxy_normalize o) kd.1
                    = if is_undefined (get o kd.1) then kd.2 else get o kd.1)
         sampling_defaults.
Proof.
  unfold sampling_defaults, proxy_normalize.
  repeat constructor; cbn [fst snd]; get_simpl;
    destruct (is_undefined (get o "max_tokens")); get_simpl; reflexivity.
Qed.

Lemma sampling_defined (n o : object) :
  Forall (fun kd => get n kd.1 = if is_undefined (get o kd.1) then kd.2 else get o kd.1)
         sampling_defaults ->
  Forall (fun kd => is_undefined (get n kd.1) = false) sampling_defaults.
Proof.
  intros Hn.
  assert (Forall (fun kd => is_undefined kd.2 = false) sampling_defaults) as Hd.
  { unfold sampling_defaults. repeat constructor. }
  rewrite Forall_forall in Hn, Hd. apply Forall_forall. intros kd Hin.
  rewrite (Hn _ Hin). destruct (is_undefined (get o kd.1)) eqn:Hu; [|exact Hu].
  apply (Hd _ Hin).
Qed.

Lemma clamp_idempotent `{Platform} (v : value) (hi : Z) :
  num_le (int 1) (int hi) = true ->
  clamp (VNum (clamp v hi)) hi = clamp v hi.
Proof. intros Hhi. unfold clamp. cbn [ToNumber]. apply clamp_number_idempotent, Hhi. Qed.

Ltac defaults_already_set Hs :=
  unfold sampling_defaults in Hs;
  repeat match type of Hs with
    | Forall _ (_ :: _) =>
        let H1 := fresh "Hset" in
        apply Forall_cons_1 in Hs as [H1 Hs]; cbn [fst] in H1;
        rewrite (set_default_defined _ _ _ H1)
    end.

(** C9. Normalising a request body that the edge relay has normalised
    gives the same body again, and so does the normalisation of the
    non-streaming proxy. *)
Theorem normalize_idempotent `{Platform} (o : object) :
  edge_normalize (edge_normalize o) = edge_normalize o
  /\ proxy_normalize (proxy_normalize o) = proxy_normalize o.
Proof.
  split.
  - pose proof (edge_normalize_stream o) as Hstream.
    pose proof (edge_normalize_max_tokens o) as Hmax.
    pose proof (sampling_defined _ _ (edge_normalize_sampling o)) as Hs.
    set (n := edge_normalize o) in *. clearbody n.
    unfold edge_normalize. cbn zeta.
    rewrite (insert_get n "stream" (VBool true) eq_refl Hstream).
    rewrite (set_default_defined n "max_tokens") by (rewrite Hmax; reflexivity).
    pose proof Hs as Hs'. unfold sampling_defaults in Hs'.
    apply Forall_cons_1 in Hs' as [Htemp Hs']. cbn [fst] in Htemp.
    defaults_already_set Hs'.
    rewrite (set_default_defined n "temperature" _ Htemp).
    apply insert_get; [reflexivity|].
    rewrite Hmax. f_equal. symmetry. apply clamp_idempotent. reflexivity.
  - pose proof (proxy_normalize_max_tokens o) as Hmax.
    pose proof (sampling_defined _ _ (proxy_normalize_sampling o)) as Hs.
    set (n := proxy_normalize o) in *. clearbody n.
    unfold proxy_normalize. cbn zeta.
    assert (is_undefined (get n "max_tokens") = false) as Hdef.
    { rewrite Hmax. destruct (is_undefined (get o "max_tokens")); reflexivity. }
    rewrite Hdef.
    assert (<["max_tokens" := VNum (clamp (get n "max_tokens") 40000)]> n = n) as ->.
    { apply insert_get; [reflexivity|]. rewrite Hmax.
      destruct (is_undefined (get o "max_tokens")).
      - reflexivity.
      - f_equal. symmetry. apply clamp_idempotent. reflexivity. }
    pose proof Hs as Hs'. unfold sampling_defaults in Hs'.
    apply Forall_cons_1 in Hs' as [Htemp Hs']. cbn [fst] in Htemp.
    defaults_already_set Hs'.
    apply (set_default_defined n "temperature" _ Htemp).
Qed.

(** The cleaned parameters of the Node relay are another matter: a [null]
    is deleted by the first pass and replaced by the default by the
    second. *)
Remark cleanedParams_twice :
  cleanedParams (H := example_platform)
    (cleanedParams (H := example_platform) (<["temperature" := VNull]> example_body))
  <> cleanedParams (H := example_platform) (<["temperature" := VNull]> example_body).
Proof.
  intros Heq. apply (f_equal (fun o => o !! "temperature")) in Heq.
  vm_compute in Heq. discriminate Heq.
Qed.

(** ** Requests that reach the handlers' bodies *)

Section Post.

(** A POST request that comes while the API key is configured. *)
Context `{Platform} (apiKey : option jsstring) (request : Http.request).
Hypothesis Hmethod : method request = "POST".
Hypothesis Hkey : key_missing apiKey = false.

Section Parsed.

(** Its body parses, to a value that has properties. *)
Context (v : value) (o : object).
Hypothesis Hbody : body request = Parsed v.
Hypothesis Hproperties : properties v = Some o.

(** The Node relay sends the stream headers and calls the upstream with
    the cleaned parameters (lines 8 to 115). *)
Lemma node_handler_streams (outcome : Streaming.fetch_outcome)
    (events : list Streaming.event) :
  Streaming.handler apiKey request outcome events
  = (Streaming.relay outcome events (Streaming.stream_headers Streaming.fresh),
     Some (JSON_stringify (cleanedParams o))).
Proof.
  unfold Streaming.handler.
  rewrite Hmethod, Hkey, Hbody, Hproperties. reflexivity.
Qed.

(** So does the edge relay, with the normalised body, when the body has a
    truthy [model] (lines 10 to 137). *)
Lemma edge_handler_streams (outcome : StreamingEdge.fetch_outcome) :
  truthy (get o "model") = true ->
  StreamingEdge.handler apiKey request outcome
  = ({| status := 200; headers := StreamingEdge.stream_headers;
        content := EventStream (StreamingEdge.background outcome) true |},
     Some (JSON_stringify (edge_normalize o))).
Proof.
  intros Hmodel. unfold StreamingEdge.handler.
  rewrite Hmethod, Hkey, Hbody, Hproperties, Hmodel. reflexivity.
Qed.

(** *** C5: the client closes the connection mid-stream *)

(** C5. A request is accepted by the Node relay and the upstream answers
    with an [ok] status; after at least one chunk was written, and before
    the upstream body has ended, the client closes the connection. Then
    what was written is those chunks and nothing else, whatever the runtime
    delivers afterwards: no later chunk is passed on and no done marker is
    written; the upstream body is destroyed and the response is ended. *)
Theorem client_close_mid_stream (status : N) (statusText : jsstring)
    (chunk : jsstring) (chunks : list jsstring) (later : list Streaming.event) :
  ok status = true ->
  let s := (Streaming.handler apiKey request (Streaming.FetchResolves status statusText)
              (Streaming.UpstreamData chunk :: map Streaming.UpstreamData chunks
               ++ Streaming.ClientClose :: later)).1 in
  Streaming.written s = Chunk chunk :: map Chunk chunks
  /\ done_count (Streaming.written s) = 0%nat
  /\ Streaming.destroyed s = true
  /\ Streaming.ended s = true.
Proof.
  intros Hok. rewrite node_handler_streams.
  cbn [fst Streaming.relay]. rewrite Hok. cbn [negb]. rewrite node_listening.
  pose proof (node_client_close (chunk :: chunks) later) as Hrun.
  cbn [map app] in Hrun. rewrite Hrun. cbn zeta.
  cbn [Streaming.written Streaming.destroyed Streaming.ended streaming].
  repeat split. apply (chunks_no_done (chunk :: chunks)).
Qed.

(** *** C4: the upstream answers with a status that is not [ok] *)

(** C4, as amended. Both relays send the headers of the event stream, with
    status 200, before they call the upstream. When the upstream then
    answers with a status that is not [ok], the caller gets the failure as
    the first frame of the stream, an error frame, and no other error frame
    and no data frame, and the stream is closed: the Node relay's message
    holds the upstream's status code and status text and is followed by the
    done marker; the edge relay's holds the status text, with the upstream's
    body, or its status code when the body cannot be read, as details. *)
Theorem upstream_status_in_stream (status : N) (statusText : jsstring)
    (text : option jsstring) (reads : list jsstring) (ending : StreamingEdge.read_end)
    (events : list Streaming.event) :
  truthy (get o "model") = true ->
  ok status = false ->
  (let s := (Streaming.handler apiKey request
               (Streaming.FetchResolves status statusText) events).1 in
   Streaming.resHeaders s !! "Content-Type" = Some "text/event-stream"
   /\ Streaming.statusCode s = 200%N
   /\ Streaming.jsonBody s = None
   /\ Streaming.written s
      = [ErrorFrame (lit "API Error: " ++ decimal status ++ lit " " ++ statusText) None;
         Done]
   /\ Streaming.ended s = true)
  /\ (let r := (StreamingEdge.handler apiKey request
                  (StreamingEdge.FetchResolves
                     {| StreamingEdge.up_status := status;
                        StreamingEdge.up_statusText := statusText;
                        StreamingEdge.up_text := text;
                        StreamingEdge.reads := reads;
                        StreamingEdge.ending := ending |})).1 in
      headers r !! "Content-Type" = Some "text/event-stream"
      /\ Http.status r = 200%N
      /\ exists frames,
           content r = EventStream frames true
           /\ head frames
              = Some (ErrorFrame (lit "API Error: " ++ statusText)
                        (Some (default (lit "Status code: " ++ decimal status) text)))
           /\ length (filter (fun f => is_error f = true) frames) = 1%nat
           /\ data_lines frames = []).
Proof.
  intros Hmodel Hok. split.
  - rewrite node_handler_streams.
    cbn [fst Streaming.relay]. rewrite Hok. repeat split.
  - rewrite (edge_handler_streams _ Hmodel).
    cbn [fst StreamingEdge.background StreamingEdge.up_status].
    rewrite Hok. cbn [negb]. repeat split.
    eexists. split; [reflexivity|].
    destruct text; repeat split.
Qed.

End Parsed.

(** *** C8: requests rejected before the upstream is called *)


End Post.

(** ** C4, C5 and C8 on the examples *)

Lemma client_close_mid_stream_witness :
  let s := (Streaming.handler (H := example_platform) example_key
              (example_request example_body)
              (Streaming.FetchResolves 200 (lit "OK"))
              [Streaming.UpstreamData (lit "data: a" ++ [LF; LF]);
               Streaming.UpstreamData (lit "data: b" ++ [LF; LF]);
               Streaming.ClientClose;
               Streaming.UpstreamData (lit "data: c" ++ [LF; LF]);
               Streaming.UpstreamEnd]).1 in
  Streaming.written s
  = [Chunk (lit "data: a" ++ [LF; LF]); Chunk (lit "data: b" ++ [LF; LF])]
  /\ done_count (Streaming.written s) = 0%nat
  /\ Streaming.destroyed s = true
  /\ Streaming.ended s = true.
Proof.
  exact (client_close_mid_stream (H := example_platform) example_key
           (example_request example_body) eq_refl eq_refl
           (VObj example_body) example_body eq_refl eq_refl
           200 (lit "OK") (lit "data: a" ++ [LF; LF]) [lit "data: b" ++ [LF; LF]]
           [Streaming.UpstreamData (lit "data: c" ++ [LF; LF]); Streaming.UpstreamEnd]
           eq_refl).
Defined.

Lemma upstream_status_in_stream_witness :
  Streaming.written
    (Streaming.handler (H := example_platform) example_key (example_request example_body)
       (Streaming.FetchResolves 500 (lit "Internal Server Error")) []).1
  = [ErrorFrame (lit "API Error: 500 Internal Server Error") None; Done].
Proof.
  exact (proj1 (proj2 (proj2 (proj2 (proj1
    (upstream_status_in_stream (H := example_platform) example_key
       (example_request example_body) eq_refl eq_refl
       (VObj example_body) example_body eq_refl eq_refl
       500 (lit "Internal Server Error") None [] StreamingEdge.EndOfData []
       eq_refl eq_refl)))))).
Defined.

(** C4, as stated, fails: the upstream answers 500, and what the caller
    gets from either relay has status 200 and not 500, the content type of
    an event stream, and no JSON error body. *)
Lemma upstream_status_counterexample :
  (let s := (Streaming.handler (H := example_platform) example_key
               (example_request example_body)
               (Streaming.FetchResolves 500 (lit "Internal Server Error")) []).1 in
   Streaming.statusCode s <> 500%N
   /\ Streaming.resHeaders s !! "Content-Type" = Some "text/event-stream"
   /\ Streaming.jsonBody s = None)
  /\ (let r := (StreamingEdge.handler (H := example_platform) example_key
                  (example_request example_body)
                  (StreamingEdge.FetchResolves
                     {| StreamingEdge.up_status := 500;
                        StreamingEdge.up_statusText := lit "Internal Server Error";
                        StreamingEdge.up_text := Some (lit "boom");
                        StreamingEdge.reads := [];
                        StreamingEdge.ending := StreamingEdge.EndOfData |})).1 in
      Http.status r <> 500%N
      /\ headers r !! "Content-Type" = Some "text/event-stream"
      /\ content r
         = EventStream
             [ErrorFrame (lit "API Error: Internal Server Error") (Some (lit "boom"))]
             true).
Proof.
  split; cbn zeta; (split; [vm_compute; discriminate | split; reflexivity]).
Qed.



(** * Further properties of the relays *)

(** ** The Node relay under any run of events *)

Lemma dispatch_open (chunks : list jsstring) (e : Streaming.event) :
  Streaming.dispatch (streaming (map Chunk chunks) false false false) e
  = match e with
    | Streaming.UpstreamData c =>
        streaming (map Chunk (chunks ++ [c])) false false false
    | Streaming.UpstreamEnd =>
        streaming (map Chunk chunks ++ [Done]) true true false
    | Streaming.UpstreamError m =>
        streaming (map Chunk chunks ++ [ErrorFrame m None; Done]) true true false
    | Streaming.ClientClose =>
        streaming (map Chunk chunks ++ []) true false true
    end.
Proof.
  destruct e; cbn [Streaming.dispatch].
  - rewrite map_app. reflexivity.
  - reflexivity.
  - change (Streaming.live (streaming (map Chunk chunks) false false false)) with true.
    cbn iota. unfold Streaming.on_error, Streaming.finish, Streaming.write, Streaming.end_.
    cbn. rewrite <- app_assoc. reflexivity.
  - rewrite app_nil_r. reflexivity.
Qed.

Lemma dispatch_closed (fs : list frame) (f d : bool) (e : Streaming.event) :
  f || d = true ->
  Streaming.dispatch (streaming fs true f d) e
  = streaming fs true f (match e with Streaming.ClientClose => true | _ => d end).
Proof. intros Hfd. destruct e, f, d; try discriminate Hfd; reflexivity. Qed.

(** From an open stream, the chunks delivered before the first [end],
    [error] or [close] are written as they come, and the relay's own frames
    follow them. *)
Lemma run_open (events : list Streaming.event) (before : list jsstring) :
  exists chunks later tail,
    events = map Streaming.UpstreamData chunks ++ later
    /\ Streaming.written
         (Streaming.run (streaming (map Chunk before) false false false) events)
       = map Chunk (before ++ chunks) ++ tail
    /\ node_closing tail.
Proof.
  revert before. induction events as [|e events IH]; intros before.
  - exists [], [], []. rewrite !app_nil_r. unfold node_closing. auto.
  - cbn [Streaming.run fold_left]. rewrite dispatch_open. destruct e.
    + destruct (IH (before ++ [chunk])) as [chunks [later [tail [-> [Hw Ht]]]]].
      exists (chunk :: chunks), later, tail. split; [reflexivity|]. split; [|exact Ht].
      unfold Streaming.run in Hw. rewrite Hw, <- app_assoc. reflexivity.
    + exists [], (Streaming.UpstreamEnd :: events), [Done].
      destruct (run_closed events (map Chunk before ++ [Done]) true false eq_refl)
        as [d' [Hrun _]].
      unfold Streaming.run in Hrun. rewrite Hrun, app_nil_r.
      unfold node_closing. auto.
    + exists [], (Streaming.UpstreamError message :: events), [ErrorFrame message None; Done].
      destruct (run_closed events (map Chunk before ++ [ErrorFrame message None; Done])
                  true false eq_refl) as [d' [Hrun _]].
      unfold Streaming.run in Hrun. rewrite Hrun, app_nil_r.
      split; [reflexivity|]. split; [reflexivity|].
      right. right. eexists. reflexivity.
    + exists [], (Streaming.ClientClose :: events), [].
      destruct (run_closed events (map Chunk before ++ []) false true eq_refl)
        as [d' [Hrun _]].
      unfold Streaming.run in Hrun. rewrite Hrun, !app_nil_r.
      unfold node_closing. auto.
Qed.

Lemma render_chunks `{Platform} (chunks : list jsstring) :
  concat (map render (map Chunk chunks)) = concat chunks.
Proof.
  induction chunks as [|c chunks IH]; [reflexivity|].
  cbn [map concat render]. rewrite IH. reflexivity.
Qed.

(** X1. Whatever the request, the upstream's answer and the events that
    follow, what the Node handler writes is a run of the upstream's chunks,
    the first ones delivered, each as it came, followed by the handler's
    own frames: nothing, the done marker, or one error frame and the done
    marker. So the handler writes its own done marker at most once and
    nothing after it, and the bytes before its frames are the upstream's.
    The chunks are not looked into: see [node_marker_twice]. *)
Theorem node_own_frames_come_last `{Platform} (apiKey : option jsstring)
    (request : Http.request) (outcome : Streaming.fetch_outcome)
    (events : list Streaming.event) :
  let s := (Streaming.handler apiKey request outcome events).1 in
  exists chunks later tail,
    events = map Streaming.UpstreamData chunks ++ later
    /\ Streaming.written s = map Chunk chunks ++ tail
    /\ node_closing tail
    /\ concat (map render (Streaming.written s))
       = concat chunks ++ concat (map render tail).
Proof.
  cbn zeta.
  assert (forall s : Streaming.session,
            (exists tail, Streaming.written s = tail /\ node_closing tail) ->
            exists chunks later tail,
              events = map Streaming.UpstreamData chunks ++ later
              /\ Streaming.written s = map Chunk chunks ++ tail
              /\ node_closing tail
              /\ concat (map render (Streaming.written s))
                 = concat chunks ++ concat (map render tail)) as Hno_chunk.
  { intros s [tail [Hw Ht]]. exists [], events, tail. rewrite Hw. auto. }
  assert (node_closing []) as Hnil by (unfold node_closing; auto).
  unfold Streaming.handler.
  destruct (bool_decide (method request = "OPTIONS"));
    [apply Hno_chunk; eexists; split; [reflexivity | exact Hnil]|].
  destruct (negb (bool_decide (method request = "POST")));
    [apply Hno_chunk; eexists; split; [reflexivity | exact Hnil]|].
  destruct (key_missing apiKey);
    [apply Hno_chunk; eexists; split; [reflexivity | exact Hnil]|].
  destruct (body request) as [message|v];
    [apply Hno_chunk; eexists; split; [reflexivity | exact Hnil]|].
  destruct (properties v) as [o|];
    [|apply Hno_chunk; eexists; split; [reflexivity | exact Hnil]].
  cbn [fst]. unfold Streaming.relay.
  assert (forall m, node_closing [ErrorFrame m None; Done]) as Hfailed.
  { intros m. right. right. eexists. reflexivity. }
  destruct outcome as [message|status statusText].
  - apply Hno_chunk. eexists. split; [reflexivity | apply Hfailed].
  - destruct (negb (ok status)).
    + apply Hno_chunk. eexists. split; [reflexivity | apply Hfailed].
    + rewrite node_listening.
      destruct (run_open events []) as [chunks [later [tail [Hev [Hw Ht]]]]].
      exists chunks, later, tail. change (map Chunk []) with (@nil frame) in Hw.
      cbn [app] in Hw. rewrite Hw.
      split; [exact Hev|]. split; [reflexivity|]. split; [exact Ht|].
      rewrite map_app, concat_app, render_chunks. reflexivity.
Qed.

(** An upstream that ends its data with a done marker of its own: the
    marker is passed on with the chunk that holds it, and the handler's
    marker follows it, so that the client receives the text twice. *)
Remark node_marker_twice :
  let s := (Streaming.handler (H := example_platform) example_key
              (example_request example_body)
              (Streaming.FetchResolves 200 (lit "OK"))
              [Streaming.UpstreamData (lit "data: [DONE]" ++ [LF; LF]);
               Streaming.UpstreamEnd]).1 in
  concat (map (render (H := example_platform)) (Streaming.written s))
  = lit "data: [DONE]" ++ [LF; LF] ++ lit "data: [DONE]" ++ [LF; LF].
Proof. reflexivity. Qed.

(** ** The edge relay on every path *)

Lemma frames_of_line_relayed (ls : list jsstring) :
  Forall (fun f => is_Some (relayed_line f)) (flat_map StreamingEdge.frames_of_line ls).
Proof.
  induction ls as [|l ls IH]; [constructor|].
  cbn [flat_map]. apply Forall_app. split; [|exact IH].
  unfold StreamingEdge.frames_of_line.
  destruct (negb (str_truthy (trim l))); [constructor|].
  destruct (startsWith (lit "data:") l); repeat constructor; eexists; reflexivity.
Qed.

(** X2. Whatever the request and the upstream's behaviour, what the edge
    handler writes is a run of frames that each carry a line of the
    upstream, followed by at most one frame of the handler's own, the done
    marker or an error frame: the two never come together, and nothing is
    written after either. The lines are not looked into: see
    [upstream_done_line]. *)
Theorem edge_own_frame_comes_last `{Platform} (apiKey : option jsstring)
    (request : Http.request) (outcome : StreamingEdge.fetch_outcome) :
  has_body outcome ->
  exists relayed tail,
    frames_written (StreamingEdge.handler apiKey request outcome).1 = relayed ++ tail
    /\ Forall (fun f => is_Some (relayed_line f)) relayed
    /\ edge_closing tail.
Proof.
  intros _.
  assert (forall fs : list frame,
            edge_closing fs ->
            exists relayed tail,
              fs = relayed ++ tail
              /\ Forall (fun f => is_Some (relayed_line f)) relayed
              /\ edge_closing tail) as Hown.
  { intros fs Hfs. exists [], fs. split; [reflexivity|]. split; [constructor | exact Hfs]. }
  assert (edge_closing []) as Hnil by (unfold edge_closing; auto).
  assert (forall m d, edge_closing [ErrorFrame m d]) as Herror.
  { intros m d. right. right. eexists. eexists. reflexivity. }
  unfold StreamingEdge.handler.
  destruct (bool_decide (method request = "OPTIONS")); [apply Hown, Hnil|].
  destruct (negb (bool_decide (method request = "POST"))); [apply Hown, Hnil|].
  destruct (key_missing apiKey); [apply Hown, Hnil|].
  destruct (body request) as [message|v]; [apply Hown, Hnil|].
  destruct (properties v) as [o|]; [|apply Hown, Hnil].
  destruct (negb (truthy (get o "model"))); [apply Hown, Hnil|].
  cbn [fst frames_written content].
  destruct outcome as [message|r]; [apply Hown, Herror|].
  cbn [StreamingEdge.background].
  destruct (negb (ok (StreamingEdge.up_status r))); [apply Hown, Herror|].
  destruct (StreamingEdge.ending r) as [|message].
  - rewrite relay_end_of_data, app_assoc. eexists. exists [Done].
    split; [reflexivity|]. split; [|unfold edge_closing; auto].
    apply Forall_app. split; [apply frames_of_line_relayed|].
    destruct (str_truthy (carry_over (concat (StreamingEdge.reads r))));
      repeat constructor; eexists; reflexivity.
  - rewrite relay_read_fails. eexists. eexists.
    split; [reflexivity|]. split; [apply frames_of_line_relayed | apply Herror].
Qed.

Lemma edge_own_frame_comes_last_witness :
  let frames :=
    frames_written
      (StreamingEdge.handler (H := example_platform) example_key
         (example_request example_body)
         (StreamingEdge.FetchResolves
            {| StreamingEdge.up_status := 200;
               StreamingEdge.up_statusText := lit "OK";
               StreamingEdge.up_text := None;
               StreamingEdge.reads := [lit "data: [DONE]" ++ [LF]];
               StreamingEdge.ending := StreamingEdge.ReadFails (lit "terminated") |})).1 in
  frames = [Forward (lit "data: [DONE]");
            ErrorFrame (lit "Stream processing error: terminated") None]
  /\ exists relayed tail,
       frames = relayed ++ tail
       /\ Forall (fun f => is_Some (relayed_line f)) relayed
       /\ edge_closing tail.
Proof.
  split; [reflexivity|].
  apply (edge_own_frame_comes_last (H := example_platform)). reflexivity.
Defined.

(** ** Lines and their terminators *)

Lemma split_lines_no_LF (s : jsstring) :
  Forall (fun l => LF ∉ l) (split_lines s).
Proof.
  induction s as [|c s IH]; cbn [split_lines].
  - repeat constructor. apply not_elem_of_nil.
  - destruct (c =? LF)%N eqn:E.
    + constructor; [apply not_elem_of_nil | exact IH].
    + destruct (split_lines s) as [|l ls]; [repeat constructor|].
      * intros Hin. apply list_elem_of_singleton in Hin. subst c.
        rewrite N.eqb_refl in E. discriminate E.
      * apply Forall_cons_1 in IH as [Hl Hls]. constructor; [|exact Hls].
        intros Hin. apply elem_of_cons in Hin as [Hc | Hin]; [|exact (Hl Hin)].
        subst c. rewrite N.eqb_refl in E. discriminate E.
Qed.

Lemma carry_over_no_LF (s : jsstring) : LF ∉ carry_over s.
Proof.
  pose proof (split_lines_no_LF s) as Hall.
  rewrite split_lines_parts in Hall.
  apply Forall_app in Hall as [_ Hc]. apply Forall_cons_1 in Hc as [Hc _]. exact Hc.
Qed.

Lemma complete_lines_no_LF (s : jsstring) :
  Forall (fun l => LF ∉ l) (complete_lines s).
Proof.
  pose proof (split_lines_no_LF s) as Hall.
  rewrite split_lines_parts in Hall.
  apply Forall_app in Hall as [Hc _]. exact Hc.
Qed.

Lemma join_lines_cons (l : jsstring) (ls : list jsstring) :
  ls <> [] -> join_lines (l :: ls) = l ++ LF :: join_lines ls.
Proof. destruct ls; [congruence | reflexivity]. Qed.

Lemma split_lines_not_nil (s : jsstring) : split_lines s <> [].
Proof. destruct (split_lines_snoc s) as [init [tl ->]]. destruct init; discriminate. Qed.

Lemma split_lines_line (l rest : jsstring) :
  LF ∉ l -> split_lines (l ++ LF :: rest) = l :: split_lines rest.
Proof.
  induction l as [|c l IHl]; intros Hl; cbn [app split_lines].
  - rewrite N.eqb_refl. reflexivity.
  - apply not_elem_of_cons in Hl as [Hc Hl].
    destruct (c =? LF)%N eqn:E.
    + apply N.eqb_eq in E. congruence.
    + rewrite (IHl Hl). reflexivity.
Qed.

Lemma split_lines_single (l : jsstring) : LF ∉ l -> split_lines l = [l].
Proof.
  induction l as [|c l IHl]; intros Hl; [reflexivity|]. cbn [split_lines].
  apply not_elem_of_cons in Hl as [Hc Hl].
  destruct (c =? LF)%N eqn:E.
  - apply N.eqb_eq in E. congruence.
  - rewrite (IHl Hl). reflexivity.
Qed.

(** Splitting a text at its line terminators loses nothing and adds
    nothing: joining the segments with the terminator gives the text back,
    and no segment holds a terminator; conversely, segments that hold no
    terminator are what their joined text splits into. *)
Lemma split_join_round_trip (s : jsstring) (lines : list jsstring) :
  join_lines (split_lines s) = s
  /\ Forall (fun l => LF ∉ l) (split_lines s)
  /\ (lines <> [] -> Forall (fun l => LF ∉ l) lines ->
      split_lines (join_lines lines) = lines).
Proof.
  refine (conj _ (conj (split_lines_no_LF s) _)).
  - induction s as [|c s IH]; [reflexivity|].
    cbn [split_lines]. destruct (c =? LF)%N eqn:E.
    + apply N.eqb_eq in E. subst c.
      rewrite join_lines_cons by apply split_lines_not_nil. rewrite IH. reflexivity.
    + pose proof (split_lines_not_nil s) as Hne.
      destruct (split_lines s) as [|l ls]; [congruence|].
      destruct ls as [|l' ls].
      * cbn [join_lines] in *. rewrite IH. reflexivity.
      * rewrite join_lines_cons in IH by discriminate.
        rewrite join_lines_cons by discriminate. rewrite <- IH. reflexivity.
  - intros Hne Hall. induction Hall as [|l lines Hl Hall IH]; [congruence|].
    destruct lines as [|l' lines].
    + apply split_lines_single, Hl.
    + rewrite join_lines_cons by discriminate.
      rewrite (split_lines_line _ _ Hl), IH by discriminate. reflexivity.
Qed.

(** X3. After any number of reads, the edge relay's loop has written the
    frames of every line whose terminator it has read, and holds back the
    text after the last terminator and nothing else: the lines handled and
    the text held back, joined by terminators, are the text read. *)
Theorem edge_loop_holds_back_the_tail (reads : list jsstring) :
  let st := fold_left StreamingEdge.read_step reads (lit "", []) in
  st.2 = flat_map StreamingEdge.frames_of_line (complete_lines (concat reads))
  /\ (LF ∉ st.1)
  /\ join_lines (complete_lines (concat reads) ++ [st.1]) = concat reads.
Proof.
  cbn zeta. change (lit "", []) with (loop_state []).
  rewrite read_loop. cbn [app loop_state fst snd].
  split; [reflexivity|]. split; [apply carry_over_no_LF|].
  rewrite <- split_lines_parts. apply (split_join_round_trip (concat reads) []).
Qed.

Lemma startsWith_app_l (p s rest : jsstring) :
  startsWith p s = true -> startsWith p (s ++ rest) = true.
Proof.
  intros Hp. apply startsWith_prefix in Hp as [tl ->].
  rewrite <- app_assoc. apply startsWith_app.
Qed.

Lemma not_blank_not_empty (l : jsstring) : str_truthy (trim l) = true -> l <> [].
Proof. intros Hl ->. discriminate Hl. Qed.

Ltac one_event_frame :=
  split; [| split; [cbn [render]; eexists; rewrite ?app_assoc; reflexivity |]].

Lemma error_frame_one_event `{Platform} (m : jsstring) (d : option jsstring) :
  one_event (ErrorFrame m d).
Proof. one_event_frame; [reflexivity | intros l' [=]]. Qed.

Lemma done_one_event `{Platform} : one_event Done.
Proof. one_event_frame; [reflexivity | intros l' [=]]. Qed.

Lemma wrap_one_event `{Platform} (l : jsstring) :
  LF ∉ l -> l <> [] -> one_event (Wrap l).
Proof.
  intros Hl Hne. one_event_frame; [reflexivity|].
  intros l' [= <-]. split; assumption.
Qed.

Lemma forward_one_event `{Platform} (l : jsstring) :
  LF ∉ l -> l <> [] -> startsWith (lit "data:") l = true -> one_event (Forward l).
Proof.
  intros Hl Hne Hd. one_event_frame; [apply startsWith_app_l, Hd|].
  intros l' [= <-]. split; assumption.
Qed.

Lemma frames_of_line_one_event `{Platform} (l : jsstring) :
  LF ∉ l -> Forall one_event (StreamingEdge.frames_of_line l).
Proof.
  intros Hl. unfold StreamingEdge.frames_of_line.
  destruct (str_truthy (trim l)) eqn:Hb; cbn [negb]; [|constructor].
  apply not_blank_not_empty in Hb.
  destruct (startsWith (lit "data:") l) eqn:Hd; apply Forall_singleton.
  - apply forward_one_event; assumption.
  - apply wrap_one_event; assumption.
Qed.

Lemma relay_one_event `{Platform} (reads : list jsstring) (ending : StreamingEdge.read_end) :
  Forall one_event (StreamingEdge.relay reads ending).
Proof.
  assert (Forall one_event
            (flat_map StreamingEdge.frames_of_line (complete_lines (concat reads)))) as Hlines.
  { pose proof (complete_lines_no_LF (concat reads)) as Hall.
    induction Hall as [|l ls Hl _ IH]; [constructor|].
    cbn [flat_map]. apply Forall_app. split; [apply frames_of_line_one_event, Hl | exact IH]. }
  destruct ending as [|message].
  - rewrite relay_end_of_data. apply Forall_app. split; [exact Hlines|].
    apply Forall_app. split.
    + destruct (str_truthy (carry_over (concat reads))) eqn:Hc; [|constructor].
      apply Forall_singleton, wrap_one_event; [apply carry_over_no_LF|].
      intros Hnil. rewrite Hnil in Hc. discriminate Hc.
    + apply Forall_singleton, done_one_event.
  - rewrite relay_read_fails. apply Forall_app. split; [exact Hlines|].
    apply Forall_singleton, error_frame_one_event.
Qed.

(** X4. Whatever the request and the upstream's behaviour, every write of
    the edge handler is one event of an event stream: it starts with
    [data:], ends with a blank line, and a relayed line is not empty and
    has no line terminator inside. *)
Theorem edge_writes_are_events `{Platform} (apiKey : option jsstring)
    (request : Http.request) (outcome : StreamingEdge.fetch_outcome) :
  Forall one_event (frames_written (StreamingEdge.handler apiKey request outcome).1).
Proof.
  unfold StreamingEdge.handler.
  destruct (bool_decide (method request = "OPTIONS")); [constructor|].
  destruct (negb (bool_decide (method request = "POST"))); [constructor|].
  destruct (key_missing apiKey); [constructor|].
  destruct (body request) as [message|v]; [constructor|].
  destruct (properties v) as [o|]; [|constructor].
  destruct (negb (truthy (get o "model"))); [constructor|].
  cbn [fst frames_written content].
  destruct outcome as [message|r]; cbn [StreamingEdge.background].
  - apply Forall_singleton, error_frame_one_event.
  - destruct (negb (ok (StreamingEdge.up_status r))); [|apply relay_one_event].
    apply Forall_singleton, error_frame_one_event.
Qed.

(** ** When the upstream is called *)




(** ** Streams that run to their end *)

Section Accepted.

(** A request that the relays accept, and an upstream that answers with a
    status that is [ok]. *)
Context `{Platform} (apiKey : option jsstring) (request : Http.request)
  (v : value) (o : object) (status : N) (statusText : jsstring).
Hypothesis Hmethod : method request = "POST".
Hypothesis Hkey : key_missing apiKey = false.
Hypothesis Hbody : body request = Parsed v.
Hypothesis Hproperties : properties v = Some o.
Hypothesis Hok : ok status = true.

Lemma node_stream_begins (events : list Streaming.event) :
  (Streaming.handler apiKey request (Streaming.FetchResolves status statusText) events).1
  = Streaming.run (streaming [] false false false) events.
Proof.
  rewrite (node_handler_streams apiKey request Hmethod Hkey v o Hbody Hproperties).
  cbn [fst Streaming.relay]. rewrite Hok. cbn [negb]. rewrite node_listening.
  reflexivity.
Qed.

(** X7. When the upstream body runs to its end, the Node relay has passed
    on every chunk as it came, in order, and then written the done marker
    and ended the response: what the client receives is the upstream's
    bytes followed by the done marker, whatever is delivered afterwards. *)
Theorem node_forwards_verbatim (chunks : list jsstring) (later : list Streaming.event) :
  let s := (Streaming.handler apiKey request (Streaming.FetchResolves status statusText)
              (map Streaming.UpstreamData chunks ++ Streaming.UpstreamEnd :: later)).1 in
  Streaming.written s = map Chunk chunks ++ [Done]
  /\ Streaming.ended s = true
  /\ concat (map render (Streaming.written s)) = concat chunks ++ render Done.
Proof.
  cbn zeta. rewrite node_stream_begins.
  destruct (node_end_of_data chunks later) as [Hw He]. cbn zeta in Hw, He.
  rewrite Hw, He. split; [reflexivity|]. split; [reflexivity|].
  rewrite map_app, concat_app, render_chunks. cbn [map concat].
  rewrite app_nil_r. reflexivity.
Qed.

(** X8. When the upstream body fails mid-stream, the Node relay has
    passed on the chunks that came before, and then writes one error frame
    with the error's message, the done marker right after it, and ends the
    response; nothing delivered afterwards is written. *)
Theorem node_error_then_done (chunks : list jsstring) (message : jsstring)
    (later : list Streaming.event) :
  let s := (Streaming.handler apiKey request (Streaming.FetchResolves status statusText)
              (map Streaming.UpstreamData chunks
               ++ Streaming.UpstreamError message :: later)).1 in
  Streaming.written s = map Chunk chunks ++ [ErrorFrame message None; Done]
  /\ Streaming.ended s = true.
Proof.
  cbn zeta. rewrite node_stream_begins. apply node_stream_error.
Qed.

(** X9. When the upstream body runs to its end, the edge relay has
    written one frame for each line that it keeps of the text read, in
    order, then its done marker, which is the last write, and the stream is
    closed. The response is one that has a body. A line [data: [DONE]] of
    the upstream is a line like any other, so the text of the marker can
    reach the client twice: see [upstream_done_line]. *)
Theorem edge_ends_with_done (text : option jsstring) (reads : list jsstring) :
  truthy (get o "model") = true ->
  null_body_status status = false ->
  let r := (StreamingEdge.handler apiKey request
              (StreamingEdge.FetchResolves
                 {| StreamingEdge.up_status := status;
                    StreamingEdge.up_statusText := statusText;
                    StreamingEdge.up_text := text;
                    StreamingEdge.reads := reads;
                    StreamingEdge.ending := StreamingEdge.EndOfData |})).1 in
  (exists frames, content r = EventStream (frames ++ [Done]) true
                  /\ Forall (fun f => is_Some (relayed_line f)) frames
                  /\ data_lines frames = kept_lines (concat reads))
  /\ Http.status r = 200%N.
Proof.
  intros Hmodel _. cbn zeta.
  rewrite (edge_handler_streams apiKey request Hmethod Hkey v o Hbody Hproperties _ Hmodel).
  cbn [fst content Http.status StreamingEdge.background StreamingEdge.up_status
       StreamingEdge.reads StreamingEdge.ending].
  rewrite Hok. cbn [negb]. split; [|reflexivity].
  rewrite relay_end_of_data, app_assoc. eexists. split; [reflexivity|]. split.
  - apply Forall_app. split; [apply frames_of_line_relayed|].
    destruct (str_truthy (carry_over (concat reads)));
      repeat constructor; eexists; reflexivity.
  - rewrite data_lines_app, data_lines_frames_of_line. unfold kept_lines.
    destruct (str_truthy (carry_over (concat reads))); reflexivity.
Qed.

End Accepted.

Lemma node_forwards_verbatim_witness :
  let s := (Streaming.handler (H := example_platform) example_key
              (example_request example_body)
              (Streaming.FetchResolves 200 (lit "OK"))
              [Streaming.UpstreamData (lit "data: a" ++ [LF; LF]);
               Streaming.UpstreamData (lit "data: [DONE]" ++ [LF; LF]);
               Streaming.UpstreamEnd; Streaming.ClientClose]).1 in
  Streaming.written s
  = [Chunk (lit "data: a" ++ [LF; LF]); Chunk (lit "data: [DONE]" ++ [LF; LF]); Done]
  /\ Streaming.ended s = true.
Proof.
  destruct (node_forwards_verbatim (H := example_platform) example_key
              (example_request example_body) (VObj example_body) example_body
              200 (lit "OK") eq_refl eq_refl eq_refl eq_refl eq_refl
              [lit "data: a" ++ [LF; LF]; lit "data: [DONE]" ++ [LF; LF]]
              [Streaming.ClientClose]) as [Hw [He _]].
  split; [exact Hw | exact He].
Defined.

Lemma node_error_then_done_witness :
  Streaming.written
    (Streaming.handler (H := example_platform) example_key
       (example_request example_body)
       (Streaming.FetchResolves 200 (lit "OK"))
       [Streaming.UpstreamData (lit "data: a" ++ [LF; LF]);
        Streaming.UpstreamError (lit "socket hang up");
        Streaming.UpstreamEnd]).1
  = [Chunk (lit "data: a" ++ [LF; LF]); ErrorFrame (lit "socket hang up") None; Done].
Proof.
  exact (proj1 (node_error_then_done (H := example_platform) example_key
                  (example_request example_body) (VObj example_body) example_body
                  200 (lit "OK") eq_refl eq_refl eq_refl eq_refl eq_refl
                  [lit "data: a" ++ [LF; LF]] (lit "socket hang up")
                  [Streaming.UpstreamEnd])).
Defined.

Lemma edge_ends_with_done_witness :
  let r := (StreamingEdge.handler (H := example_platform) example_key
              (example_request example_body)
              (StreamingEdge.FetchResolves
                 {| StreamingEdge.up_status := 200;
                    StreamingEdge.up_statusText := lit "OK";
                    StreamingEdge.up_text := None;
                    StreamingEdge.reads := [lit "data: a" ++ [LF]; [LF] ++ lit "tail"];
                    StreamingEdge.ending := StreamingEdge.EndOfData |})).1 in
  content r = EventStream [Forward (lit "data: a"); Wrap (lit "tail"); Done] true
  /\ Http.status r = 200%N.
Proof.
  split; [reflexivity|].
  exact (proj2 (edge_ends_with_done (H := example_platform) example_key
                  (example_request example_body) (VObj example_body) example_body
                  200 (lit "OK") eq_refl eq_refl eq_refl eq_refl eq_refl
                  None [lit "data: a" ++ [LF]; [LF] ++ lit "tail"] eq_refl eq_refl)).
Defined.

(** ** What the relays send of the caller's body *)

Lemma get_empty (k : string) : get ∅ k = VUndefined.
Proof. unfold get. rewrite lookup_empty. reflexivity. Qed.

Ltac split_not_in H :=
  unfold cleaned_names, normalized_names in H;
  repeat (apply not_elem_of_cons in H as [? H]).

Lemma cleanedParams_other `{Platform} (o : object) (k : string) :
  k ∉ cleaned_names -> get (cleanedParams o) k = VUndefined.
Proof.
  intros Hk. split_not_in Hk.
  unfold cleanedParams. rewrite get_filter_nullish.
  cbn [list_to_map foldr fst snd].
  repeat (rewrite get_insert_ne by congruence).
  rewrite get_empty. reflexivity.
Qed.

(** X10. The request that the Node relay sends to the upstream holds no
    property but the nine it knows, whatever else the caller sent; [model]
    and [messages] are the caller's, and are left out when the caller's
    are missing or [null]. *)
Theorem node_sends_known_properties_only `{Platform} (o : object) :
  (forall k v, JSON_stringify (cleanedParams o) !! k = Some v -> k ∈ cleaned_names)
  /\ Forall (fun k => JSON_stringify (cleanedParams o) !! k
                      = if is_nullish (get o k) then None else json_property (get o k))
            ["model"; "messages"].
Proof.
  split.
  - intros k v Hk. destruct (decide (k ∈ cleaned_names)) as [Hin|Hout]; [exact Hin|].
    rewrite JSON_stringify_lookup, (cleanedParams_other o k Hout) in Hk.
    discriminate Hk.
  - repeat constructor; rewrite JSON_stringify_lookup; cleaned_get;
      rewrite get_stream_default by discriminate;
      match goal with |- context [is_nullish ?v] => destruct v end; reflexivity.
Qed.

(** X11. The edge relay passes on every property of the caller's body
    that it does not set itself, [model], [messages] and any property it
    does not know among them. *)
Theorem edge_passes_other_properties `{Platform} (o : object) (k : string) :
  k ∉ normalized_names ->
  JSON_stringify (edge_normalize o) !! k = json_property (get o k).
Proof.
  intros Hk. split_not_in Hk.
  rewrite JSON_stringify_lookup. unfold edge_normalize.
  repeat first [ rewrite get_insert_ne by congruence
               | rewrite get_set_default_ne by congruence ].
  reflexivity.
Qed.

Lemma edge_passes_other_properties_witness :
  JSON_stringify
    (edge_normalize (H := example_platform) (<["user" := VStr (lit "u1")]> example_body))
    !! "user"
  = Some (VStr (lit "u1")).
Proof.
  rewrite (edge_passes_other_properties (H := example_platform)
             (<["user" := VStr (lit "u1")]> example_body) "user").
  - reflexivity.
  - unfold normalized_names. intros Hin.
    repeat (apply elem_of_cons in Hin as [Hin | Hin]; [discriminate Hin|]).
    apply elem_of_nil in Hin. exact Hin.
Defined.

(** X12. A [max_tokens] that is a number is sent by either relay as a
    number within the relay's range, from 1 to 8192 for the edge relay and
    from 1 to 40000 for the Node relay. *)
Theorem max_tokens_in_range `{Platform} (o : object) (n : number) :
  get o "max_tokens" = VNum n -> n <> NaN ->
  (exists r, JSON_stringify (edge_normalize o) !! "max_tokens" = Some (VNum r)
             /\ within r 1 8192)
  /\ (exists r, JSON_stringify (cleanedParams o) !! "max_tokens" = Some (VNum r)
                /\ within r 1 40000).
Proof.
  intros Hn Hnan.
  destruct (max_tokens_sent o) as [_ [Hrange _]]. exact (Hrange n Hn Hnan).
Qed.

Lemma max_tokens_in_range_witness :
  exists r, JSON_stringify
              (edge_normalize (H := example_platform)
                 (<["max_tokens" := VNum (int 999999)]> example_body))
              !! "max_tokens" = Some (VNum r)
            /\ within r 1 8192.
Proof.
  refine (proj1 (max_tokens_in_range (H := example_platform)
                   (<["max_tokens" := VNum (int 999999)]> example_body)
                   (int 999999) _ _)).
  - vm_compute. reflexivity.
  - discriminate.
Defined.

Lemma clamp_NaN `{Platform} (v : value) (hi : Z) : ToNumber v = NaN -> clamp v hi = NaN.
Proof. intros Hv. unfold clamp. rewrite Hv. reflexivity. Qed.

(** X13. A [max_tokens] that is present but does not convert to a number
    is neither rejected nor replaced by the default: either relay sends
    [max_tokens: null] (the Node relay when the value is truthy). *)
Theorem max_tokens_not_a_number `{Platform} (o : object) :
  ToNumber (get o "max_tokens") = NaN ->
  (is_undefined (get o "max_tokens") = false ->
   JSON_stringify (edge_normalize o) !! "max_tokens" = Some VNull)
  /\ (truthy (get o "max_tokens") = true ->
      JSON_stringify (cleanedParams o) !! "max_tokens" = Some VNull).
Proof.
  intros Hnan. split.
  - intros Hdef.
    rewrite JSON_stringify_lookup, edge_normalize_max_tokens, Hdef.
    rewrite (clamp_NaN _ _ Hnan). reflexivity.
  - intros Htruthy.
    rewrite JSON_stringify_lookup, cleanedParams_max_tokens. unfold or_else.
    rewrite Htruthy, (clamp_NaN _ _ Hnan). reflexivity.
Qed.

Lemma max_tokens_not_a_number_witness :
  JSON_stringify
    (edge_normalize (H := example_platform)
       (<["max_tokens" := VStr (lit "many")]> example_body))
    !! "max_tokens" = Some VNull.
Proof.
  refine (proj1 (max_tokens_not_a_number (H := example_platform)
                   (<["max_tokens" := VStr (lit "many")]> example_body) _) _);
    vm_compute; reflexivity.
Defined.

(** * The non-streaming proxy *)

(** ** The phrase looked for in the system prompt *)

Lemma startsWith_nil (p : jsstring) : startsWith p [] = true -> p = [].
Proof. destruct p; [reflexivity | discriminate]. Qed.

(** [includes] is the test for an occurrence. *)
Lemma includes_occurs_in (needle hay : jsstring) :
  Proxy.includes needle hay = true <-> occurs_in needle hay.
Proof.
  induction hay as [|c hay IH]; cbn [Proxy.includes].
  - rewrite orb_false_r. split.
    + intros Hs. apply startsWith_nil in Hs as ->. exists [], []. reflexivity.
    + intros [before [after Heq]]. symmetry in Heq.
      apply app_eq_nil in Heq as [_ Heq]. apply app_eq_nil in Heq as [-> _].
      reflexivity.
  - rewrite orb_true_iff, IH. split.
    + intros [Hs | [before [after ->]]].
      * apply startsWith_prefix in Hs as [rest ->]. exists [], rest. reflexivity.
      * exists (c :: before), after. reflexivity.
    + intros [[|b before] [after Heq]].
      * left. cbn [app] in Heq. rewrite Heq. apply startsWith_app.
      * right. injection Heq as _ ->. exists before, after. reflexivity.
Qed.

(** The reasoning method is read off the messages. *)
Lemma reasoningMethod_messages (o o' : object) :
  get o "messages" = get o' "messages" ->
  Proxy.reasoningMethod o = Proxy.reasoningMethod o'.
Proof. intros Hm. unfold Proxy.reasoningMethod. rewrite Hm. reflexivity. Qed.

Lemma proxy_normalize_messages `{Platform} (o : object) :
  get (proxy_normalize o) "messages" = get o "messages".
Proof.
  unfold proxy_normalize. get_simpl.
  destruct (is_undefined (get o "max_tokens")); get_simpl; reflexivity.
Qed.

Lemma reasoningMethod_first_content (o : object) :
  Proxy.reasoningMethod o
  = match first_content o with
    | None => Some Proxy.Standard
    | Some systemPrompt =>
        match Proxy.prompt_includes systemPrompt (lit "Chain of Draft") with
        | None => None
        | Some true => Some Proxy.CoD
        | Some false =>
            match Proxy.prompt_includes systemPrompt (lit "Chain of Thought") with
            | None => None
            | Some true => Some Proxy.CoT
            | Some false => Some Proxy.Standard
            end
        end
    end.
Proof.
  unfold Proxy.reasoningMethod, first_content. cbn zeta.
  destruct (truthy (get o "messages") && truthy (Proxy.element0 (get o "messages"))
            && truthy (Proxy.property (Proxy.element0 (get o "messages")) "content"));
    reflexivity.
Qed.


(** ** When the proxy calls the upstream *)


(** A first message whose content is a number: the request is answered
    400 with the message of the [TypeError], and the upstream is not
    called. *)
Example numeric_content_rejected (outcome : Proxy.fetch_outcome) (responseTime : number) :
  Proxy.handler (H := example_platform) (H0 := example_runtime) example_key
    (example_request (prompt_body (VNum (int 7)))) outcome responseTime
  = (Proxy.bad_request (lit "systemPrompt.includes is not a function"), None).
Proof. reflexivity. Qed.

(** ** Requests that the proxy passes on *)

Section Forwarded.

Context `{Platform} `{Proxy.Runtime} (API_KEY : option jsstring) (request : Http.request)
  (v : value) (o : object) (r : Proxy.reasoning) (responseTime : number).
Hypothesis Hmethod : method request = "POST".
Hypothesis Hkey : key_missing API_KEY = false.
Hypothesis Hbody : body request = Parsed v.
Hypothesis Hproperties : properties v = Some o.
Hypothesis Hreasoning : Proxy.reasoningMethod o = Some r.

Lemma proxy_handler_calls (outcome : Proxy.fetch_outcome) :
  Proxy.handler API_KEY request outcome responseTime
  = (Proxy.answer outcome responseTime r,
     Some (Proxy.stringify_body v (proxy_normalize o))).
Proof.
  unfold Proxy.handler.
  rewrite Hmethod, Hkey, Hbody, Hproperties. cbn [bool_decide negb]. cbn zeta.
  rewrite (reasoningMethod_messages _ o (proxy_normalize_messages o)), Hreasoning.
  reflexivity.
Qed.

(** X15. Once the upstream is called, whatever fails is answered in the
    same way, be it the call itself, the reading of the text of an answer
    that is not [ok], or the parsing of an answer that is: 504 when the
    error is named [AbortError], and otherwise 500 with the message of the
    error. *)
Theorem proxy_failure_answer (outcome : Proxy.fetch_outcome) (e : Proxy.js_error) :
  outcome = Proxy.FetchRejects e
  \/ (exists response, outcome = Proxy.FetchResolves response
        /\ ((ok (Proxy.up_status response) = false /\ Proxy.up_text response = Proxy.Throws e)
            \/ (ok (Proxy.up_status response) = true
                /\ Proxy.up_json response = Proxy.Throws e))) ->
  let reply := (Proxy.handler API_KEY request outcome responseTime).1 in
  (Proxy.name e = lit "AbortError" ->
     Proxy.code reply = 504%N
     /\ exists message, Proxy.reply_content reply
                        = Proxy.Failure (lit "Gateway Timeout") (Some message) None)
  /\ (Proxy.name e <> lit "AbortError" ->
     Proxy.code reply = 500%N
     /\ Proxy.reply_content reply
        = Proxy.Failure (lit "Request Failed") (Some (Proxy.message e)) None).
Proof.
  intros Hfails. cbn zeta. rewrite proxy_handler_calls. cbn [fst].
  assert (Proxy.answer outcome responseTime r = Proxy.failed e) as ->.
  { destruct Hfails as [-> | [response [-> [[Hok Ht] | [Hok Hj]]]]];
      cbn [Proxy.answer]; [reflexivity | |]; rewrite Hok; cbn [negb].
    - rewrite Ht. reflexivity.
    - rewrite Hj. reflexivity. }
  unfold Proxy.failed. case_bool_decide as Hname.
  - split; [|intros Hn; contradiction].
    intros _. split; [reflexivity|]. eexists. reflexivity.
  - split; [intros Hn; contradiction|].
    intros _. split; reflexivity.
Qed.

(** X16. An answer of the upstream that is not [ok] and whose text can be
    read reaches the caller with the upstream's status: the status of the
    reply is the upstream's, and the body holds the status text and the
    text of the upstream's answer. *)
Theorem proxy_passes_upstream_status (response : Proxy.upstream_response)
    (errorText : jsstring) :
  ok (Proxy.up_status response) = false ->
  Proxy.up_text response = Proxy.Returns errorText ->
  (Proxy.handler API_KEY request (Proxy.FetchResolves response) responseTime).1
  = {| Proxy.code := Proxy.up_status response;
       Proxy.reply_headers := json_headers;
       Proxy.reply_content :=
         Proxy.Failure (lit "API Error: " ++ Proxy.up_statusText response) None
           (Some errorText) |}.
Proof.
  intros Hok Ht. rewrite proxy_handler_calls. cbn [fst Proxy.answer].
  rewrite Hok, Ht. reflexivity.
Qed.

(** X18. An answer of the upstream that is [ok] and parses is passed on
    with status 200. When it is an object without a truthy [error], it gets
    the property [performance], with the time taken and the name of the
    reasoning method, and keeps every other property; any other answer is
    passed on as it is. *)
Theorem proxy_success_reply (response : Proxy.upstream_response) (data : value) :
  ok (Proxy.up_status response) = true ->
  Proxy.up_json response = Proxy.Returns data ->
  let reply := (Proxy.handler API_KEY request (Proxy.FetchResolves response) responseTime).1 in
  exists sent,
    reply = {| Proxy.code := 200; Proxy.reply_headers := Proxy.success_headers;
               Proxy.reply_content := Proxy.Data sent |}
    /\ (forall d, data = VObj d -> truthy (get d "error") = false ->
        exists d', sent = VObj d'
          /\ d' !! "performance"
             = Some (VObj (<["response_time_ms" := VNum responseTime]>
                           {["reasoning_method" := VStr (Proxy.reasoning_name r)]}))
          /\ (forall k, k <> "performance" -> d' !! k = d !! k))
    /\ (forall d, data = VObj d -> truthy (get d "error") = true -> sent = data)
    /\ ((forall d, data <> VObj d) -> sent = data).
Proof.
  intros Hok Hj. cbn zeta. rewrite proxy_handler_calls. cbn [fst Proxy.answer].
  rewrite Hok, Hj. cbn [negb]. eexists. split; [reflexivity|].
  split; [|split].
  - intros d -> Herr. cbn [Proxy.with_performance]. rewrite Herr. cbn [negb].
    eexists. split; [reflexivity|]. split.
    + apply lookup_insert_eq.
    + intros k Hk. apply lookup_insert_ne. congruence.
  - intros d -> Herr. cbn [Proxy.with_performance]. rewrite Herr. reflexivity.
  - intros Hd. destruct data; try reflexivity. exfalso. exact (Hd _ eq_refl).
Qed.

End Forwarded.

(** ** What the proxy sends of the caller's body *)

Lemma proxy_normalize_other `{Platform} (o : object) (k : string) :
  k ∉ proxy_names -> get (proxy_normalize o) k = get o k.
Proof.
  intros Hk. unfold proxy_names in Hk.
  repeat (apply not_elem_of_cons in Hk as [? Hk]).
  unfold proxy_normalize.
  repeat first [ rewrite get_set_default_ne by congruence ].
  destruct (is_undefined (get o "max_tokens")); apply get_insert_ne; congruence.
Qed.

(** X17. What the proxy sends to the upstream for a body that is an
    object: every property that the proxy does not set is the caller's,
    [stream] among them; [max_tokens] is 4008 when the caller left it out,
    and a number from 1 to 40000 when the caller sent a number, 1 for a
    zero; each sampling parameter has its default when the caller left it
    out, and is the caller's otherwise. *)
Theorem proxy_forwards `{Platform} `{Proxy.Runtime} (API_KEY : option jsstring)
    (request : Http.request) (o : object) (outcome : Proxy.fetch_outcome)
    (responseTime : number) :
  method request = "POST" ->
  key_missing API_KEY = false ->
  body request = Parsed (VObj o) ->
  is_Some (Proxy.reasoningMethod o) ->
  exists sent,
    (Proxy.handler API_KEY request outcome responseTime).2 = Some (VObj sent)
    /\ (forall k, k ∉ proxy_names -> sent !! k = json_property (get o k))
    /\ (get o "max_tokens" = VUndefined -> sent !! "max_tokens" = Some (VNum (int 4008)))
    /\ (forall n, get o "max_tokens" = VNum n -> n <> NaN ->
        exists m, sent !! "max_tokens" = Some (VNum m) /\ within m 1 40000)
    /\ (get o "max_tokens" = VNum (int 0) -> sent !! "max_tokens" = Some (VNum (int 1)))
    /\ Forall (fun kd => sent !! kd.1
                         = if is_undefined (get o kd.1) then Some kd.2
                           else json_property (get o kd.1))
              sampling_defaults.
Proof.
  intros Hmethod Hkey Hbody [r Hr].
  rewrite (proxy_handler_calls API_KEY request (VObj o) o r responseTime
             Hmethod Hkey Hbody eq_refl Hr outcome).
  cbn [snd Proxy.stringify_body]. eexists. split; [reflexivity|].
  split; [|split; [|split; [|split]]].
  - intros k Hk. rewrite JSON_stringify_lookup, (proxy_normalize_other o k Hk).
    reflexivity.
  - intros Hu. rewrite JSON_stringify_lookup, proxy_normalize_max_tokens, Hu.
    reflexivity.
  - intros n Hn Hnan. rewrite JSON_stringify_lookup, proxy_normalize_max_tokens, Hn.
    cbn [is_undefined].
    destruct (clamp_number_within n 40000 Hnan eq_refl) as [q [Hq Hrange]].
    exists (Fin q). unfold clamp. cbn [ToNumber]. rewrite Hq.
    split; [reflexivity|]. exists q. split; [reflexivity | exact Hrange].
  - intros Hz. rewrite JSON_stringify_lookup, proxy_normalize_max_tokens, Hz.
    reflexivity.
  - pose proof (proxy_normalize_sampling o) as Hs.
    assert (Forall (fun kd => json_property kd.2 = Some kd.2) sampling_defaults) as Hd.
    { unfold sampling_defaults. repeat constructor. }
    rewrite Forall_forall in Hs, Hd. apply Forall_forall. intros [k d] Hin.
    specialize (Hs _ Hin). specialize (Hd _ Hin). cbn [fst snd] in *.
    rewrite JSON_stringify_lookup, Hs.
    destruct (is_undefined (get o k)); [exact Hd | reflexivity].
Qed.

(** ** The reasoning method *)

(** X19. The reasoning method that the proxy reports is read off the
    content of the first message. Without one it is [Standard]. For a
    content that is a string it is [CoD] exactly when the phrase
    [Chain of Draft] occurs in it, [CoT] exactly when that phrase does not
    occur and [Chain of Thought] does, and [Standard] exactly when neither
    occurs. The properties that the proxy sets play no part in it. *)
Theorem reasoning_method_of_prompt `{Platform} (o : object) :
  Proxy.reasoningMethod (proxy_normalize o) = Proxy.reasoningMethod o
  /\ (first_content o = None -> Proxy.reasoningMethod o = Some Proxy.Standard)
  /\ (forall s, first_content o = Some (VStr s) ->
      (Proxy.reasoningMethod o = Some Proxy.CoD
       <-> occurs_in (lit "Chain of Draft") s)
      /\ (Proxy.reasoningMethod o = Some Proxy.CoT
          <-> ~ occurs_in (lit "Chain of Draft") s
              /\ occurs_in (lit "Chain of Thought") s)
      /\ (Proxy.reasoningMethod o = Some Proxy.Standard
          <-> ~ occurs_in (lit "Chain of Draft") s
              /\ ~ occurs_in (lit "Chain of Thought") s)).
Proof.
  split; [apply reasoningMethod_messages, proxy_normalize_messages|].
  rewrite reasoningMethod_first_content. split.
  - intros ->. reflexivity.
  - intros s ->. cbn [Proxy.prompt_includes].
    rewrite <- !includes_occurs_in.
    destruct (Proxy.includes (lit "Chain of Draft") s),
             (Proxy.includes (lit "Chain of Thought") s);
      repeat split; try discriminate; try reflexivity; try tauto;
      try (intros [? ?]; congruence); try (intros ?; congruence).
Qed.

(** A system prompt that names both methods is taken for a draft. *)
Example both_phrases :
  Proxy.reasoningMethod
    (prompt_body (VStr (lit "Use Chain of Thought, then Chain of Draft.")))
  = Some Proxy.CoD.
Proof. reflexivity. Qed.

(** ** The proxy on the examples *)

Lemma proxy_failure_answer_witness :
  let reply :=
    (Proxy.handler (H := example_platform) (H0 := example_runtime) example_key
       (example_request example_body)
       (Proxy.FetchResolves
          {| Proxy.up_status := 200; Proxy.up_statusText := lit "OK";
             Proxy.up_text := Proxy.Returns (lit "data: {}");
             Proxy.up_json :=
               Proxy.Throws {| Proxy.name := lit "FetchError";
                               Proxy.message := lit "invalid json response body" |} |})
       (int 12)).1 in
  Proxy.code reply = 500%N
  /\ Proxy.reply_content reply
     = Proxy.Failure (lit "Request Failed") (Some (lit "invalid json response body")) None.
Proof.
  refine (proj2 (proxy_failure_answer (H := example_platform) (H0 := example_runtime)
                   example_key (example_request example_body) (VObj example_body)
                   example_body Proxy.Standard (int 12)
                   eq_refl eq_refl eq_refl eq_refl eq_refl _
                   {| Proxy.name := lit "FetchError";
                      Proxy.message := lit "invalid json response body" |} _) _).
  - right. eexists. split; [reflexivity|]. right. split; reflexivity.
  - discriminate.
Defined.

Lemma proxy_passes_upstream_status_witness :
  (Proxy.handler (H := example_platform) (H0 := example_runtime) example_key
     (example_request example_body)
     (Proxy.FetchResolves
        {| Proxy.up_status := 429; Proxy.up_statusText := lit "Too Many Requests";
           Proxy.up_text := Proxy.Returns (lit "slow down");
           Proxy.up_json := Proxy.Returns VNull |})
     (int 12)).1
  = {| Proxy.code := 429; Proxy.reply_headers := json_headers;
       Proxy.reply_content :=
         Proxy.Failure (lit "API Error: Too Many Requests") None (Some (lit "slow down")) |}.
Proof.
  exact (proxy_passes_upstream_status (H := example_platform) (H0 := example_runtime)
           example_key (example_request example_body) (VObj example_body)
           example_body Proxy.Standard (int 12)
           eq_refl eq_refl eq_refl eq_refl eq_refl
           {| Proxy.up_status := 429; Proxy.up_statusText := lit "Too Many Requests";
              Proxy.up_text := Proxy.Returns (lit "slow down");
              Proxy.up_json := Proxy.Returns VNull |}
           (lit "slow down") eq_refl eq_refl).
Defined.

Lemma proxy_success_reply_witness :
  exists sent,
    (Proxy.handler (H := example_platform) (H0 := example_runtime) example_key
       (example_request (prompt_body (VStr (lit "Think in a Chain of Draft."))))
       (Proxy.FetchResolves
          {| Proxy.up_status := 200; Proxy.up_statusText := lit "OK";
             Proxy.up_text := Proxy.Returns (lit "{}");
             Proxy.up_json := Proxy.Returns (VObj {["id" := VStr (lit "c1")]}) |})
       (int 12)).1
    = {| Proxy.code := 200; Proxy.reply_headers := Proxy.success_headers;
         Proxy.reply_content := Proxy.Data sent |}
    /\ exists d', sent = VObj d'
         /\ d' !! "performance"
            = Some (VObj (<["response_time_ms" := VNum (int 12)]>
                          {["reasoning_method" := VStr (lit "CoD")]}))
         /\ d' !! "id" = Some (VStr (lit "c1")).
Proof.
  destruct (proxy_success_reply (H := example_platform) (H0 := example_runtime)
              example_key
              (example_request (prompt_body (VStr (lit "Think in a Chain of Draft."))))
              (VObj (prompt_body (VStr (lit "Think in a Chain of Draft."))))
              (prompt_body (VStr (lit "Think in a Chain of Draft.")))
              Proxy.CoD (int 12)
              eq_refl eq_refl eq_refl eq_refl eq_refl
              {| Proxy.up_status := 200; Proxy.up_statusText := lit "OK";
                 Proxy.up_text := Proxy.Returns (lit "{}");
                 Proxy.up_json := Proxy.Returns (VObj {["id" := VStr (lit "c1")]}) |}
              (VObj {["id" := VStr (lit "c1")]}) eq_refl eq_refl)
    as [sent [Hreply [Hadds _]]].
  exists sent. split; [exact Hreply|].
  destruct (Hadds _ eq_refl eq_refl) as [d' [Hsent [Hperf Hrest]]].
  exists d'. split; [exact Hsent|]. split; [exact Hperf|].
  rewrite Hrest by discriminate. reflexivity.
Defined.

Lemma proxy_forwards_witness :
  exists sent,
    (Proxy.handler (H := example_platform) (H0 := example_runtime) example_key
       (example_request (<["stream" := VBool true]>
                         (<["max_tokens" := VNum (int 0)]> example_body)))
       (Proxy.FetchRejects {| Proxy.name := lit "AbortError"; Proxy.message := lit "aborted" |})
       (int 12)).2 = Some (VObj sent)
    /\ sent !! "stream" = Some (VBool true)
    /\ sent !! "max_tokens" = Some (VNum (int 1)).
Proof.
  destruct (proxy_forwards (H := example_platform) (H0 := example_runtime) example_key
              (example_request (<["stream" := VBool true]>
                                (<["max_tokens" := VNum (int 0)]> example_body)))
              (<["stream" := VBool true]> (<["max_tokens" := VNum (int 0)]> example_body))
              (Proxy.FetchRejects {| Proxy.name := lit "AbortError";
                                     Proxy.message := lit "aborted" |})
              (int 12) eq_refl eq_refl eq_refl)
    as [sent [Hsent [Hother [_ [_ [Hzero _]]]]]].
  - eexists. reflexivity.
  - exists sent. split; [exact Hsent|]. split.
    + rewrite Hother; [reflexivity|].
      unfold proxy_names. intros Hin.
      repeat (apply elem_of_cons in Hin as [Hin | Hin]; [discriminate Hin|]).
      apply elem_of_nil in Hin. exact Hin.
    + apply Hzero. reflexivity.
Defined.
